(** * Network Sentinel: the dashboard's API client and scan polling

    A shallow embedding of [frontend/src/lib/api.ts] (token storage, request
    construction, response handling, AI time-outs, risk styling) and of the
    dashboard page's [handleScan] polling loop, with the properties the
    specification states about them. *)

From Stdlib Require Import ZArith String Ascii List Bool Lia OrderedTypeEx.
From stdpp Require Import base option list strings gmap pretty.

Local Set Warnings "-register-all".
Local Open Scope Z_scope.
Local Open Scope string_scope.

(** ** JavaScript values

    Parsed JSON bodies and object literals, as the runtime sees them once the
    TypeScript annotations are erased. Numbers are the integral ones. *)

Inductive jsval : Type :=
| VUndefined
| VNull
| VBool (b : bool)
| VNum (n : Z)
| VStr (s : string)
| VArr (xs : list jsval)
| VObj (props : list (string * jsval)).

(** An exception value: [e.name] and [e.message]. *)
Record exn : Type := { exn_name : string; exn_message : string }.

Definition Error (msg : string) : exn :=
  {| exn_name := "Error"; exn_message := msg |}.
Definition TypeError (msg : string) : exn :=
  {| exn_name := "TypeError"; exn_message := msg |}.
Definition SyntaxError (msg : string) : exn :=
  {| exn_name := "SyntaxError"; exn_message := msg |}.
Definition ReferenceError (msg : string) : exn :=
  {| exn_name := "ReferenceError"; exn_message := msg |}.
Definition AbortError : exn :=
  {| exn_name := "AbortError"; exn_message := "The operation was aborted." |}.

(** How a call ends: with a value or with a thrown exception (a rejected
    promise for the [async] functions). *)
Inductive completion (A : Type) : Type :=
| Return (a : A)
| Throw (e : exn).
Arguments Return {A} a.
Arguments Throw {A} e.

Module Js.

(** Own-property lookup in an object literal or a parsed object. *)
Fixpoint assoc (k : string) (ps : list (string * jsval)) : option jsval :=
  match ps with
  | [] => None
  | (k', v) :: ps' => if String.eqb k k' then Some v else assoc k ps'
  end.

(** [v.k]: reading a property of [null] or [undefined] throws; a key
    that is absent reads as [undefined]. The keys read by the client
    ([detail], [access_token], [scan_time], [scans], [configured]) are
    not properties of strings, numbers, booleans or arrays. *)
Definition get (v : jsval) (k : string) : completion jsval :=
  match v with
  | VUndefined => Throw (TypeError ("Cannot read properties of undefined (reading '" ++ k ++ "')"))
  | VNull => Throw (TypeError ("Cannot read properties of null (reading '" ++ k ++ "')"))
  | VObj ps => Return (default VUndefined (assoc k ps))
  | _ => Return VUndefined
  end.

(** [v?.k] *)
Definition get_opt (v : jsval) (k : string) : jsval :=
  match v with
  | VObj ps => default VUndefined (assoc k ps)
  | _ => VUndefined
  end.

(** ToBoolean *)
Definition truthy (v : jsval) : bool :=
  match v with
  | VUndefined | VNull => false
  | VBool b => b
  | VNum n => negb (n =? 0)%Z
  | VStr s => negb (String.eqb s "")
  | VArr _ | VObj _ => true
  end.

(** [a || b] *)
Definition or (a b : jsval) : jsval := if truthy a then a else b.

Definition join (sep : string) (parts : list string) : string :=
  String.concat sep parts.

(** ToString *)
Fixpoint to_string (v : jsval) : string :=
  match v with
  | VUndefined => "undefined"
  | VNull => "null"
  | VBool b => if b then "true" else "false"
  | VNum n => pretty n
  | VStr s => s
  | VArr xs =>
      join "," (map (fun x => match x with
                              | VUndefined | VNull => ""
                              | _ => to_string x
                              end) xs)
  | VObj _ => "[object Object]"
  end.

(** [a === b] between a freshly parsed value and any other value:
    primitives compare by value, arrays and objects by identity, and a
    fresh parse shares no object with anything else. *)
Definition strict_eq (a b : jsval) : bool :=
  match a, b with
  | VUndefined, VUndefined => true
  | VNull, VNull => true
  | VBool x, VBool y => Bool.eqb x y
  | VNum x, VNum y => (x =? y)%Z
  | VStr x, VStr y => String.eqb x y
  | _, _ => false
  end.

(** *** JSON.stringify *)

Definition dquote : string := String (ascii_of_nat 34) "".
Definition backslash : string := String (ascii_of_nat 92) "".

Definition hex_digit (n : nat) : ascii :=
  ascii_of_nat (if Nat.ltb n 10 then 48 + n else 87 + n)%nat.

Definition escape_char (c : ascii) : string :=
  let n := nat_of_ascii c in
  if Nat.eqb n 34 then backslash ++ dquote
  else if Nat.eqb n 92 then backslash ++ backslash
  else if Nat.eqb n 8 then backslash ++ "b"
  else if Nat.eqb n 9 then backslash ++ "t"
  else if Nat.eqb n 10 then backslash ++ "n"
  else if Nat.eqb n 12 then backslash ++ "f"
  else if Nat.eqb n 13 then backslash ++ "r"
  else if Nat.ltb n 32 then
    backslash ++ "u00" ++ String (hex_digit (n / 16)) (String (hex_digit (n mod 16)) "")
  else String c "".

Fixpoint escape (s : string) : string :=
  match s with
  | EmptyString => ""
  | String c s' => escape_char c ++ escape s'
  end.

Definition quote (s : string) : string := dquote ++ escape s ++ dquote.

(** A property whose value is [undefined] is omitted from an object;
    an [undefined] array element is written [null]. *)
Fixpoint stringify (v : jsval) : option string :=
  match v with
  | VUndefined => None
  | VNull => Some "null"
  | VBool b => Some (if b then "true" else "false")
  | VNum n => Some (pretty n)
  | VStr s => Some (quote s)
  | VArr xs =>
      Some ("[" ++ join "," (map (fun x => default "null" (stringify x)) xs) ++ "]")
  | VObj ps =>
      Some ("{" ++ join ","
              (omap (fun p => match stringify (snd p) with
                              | Some t => Some (quote (fst p) ++ ":" ++ t)
                              | None => None
                              end) ps) ++ "}")
  end.

End Js.

(** ** A state-and-exception monad for the client's effects *)

Definition M (S A : Type) : Type := S -> completion A * S.

Definition ret {S A : Type} (a : A) : M S A := fun s => (Return a, s).

Definition throw {S A : Type} (e : exn) : M S A := fun s => (Throw e, s).

Definition bind {S A B : Type} (m : M S A) (k : A -> M S B) : M S B :=
  fun s =>
    match m s with
    | (Return a, s') => k a s'
    | (Throw e, s') => (Throw e, s')
    end.

(** [try { m } catch (e) { h e }] *)
Definition try_catch {S A : Type} (m : M S A) (h : exn -> M S A) : M S A :=
  fun s =>
    match m s with
    | (Return a, s') => (Return a, s')
    | (Throw e, s') => h e s'
    end.

Definition lift {S A : Type} (c : completion A) : M S A := fun s => (c, s).

Notation "'let*' x ':=' m 'in' k" := (bind m (fun x => k))
  (at level 10, x name, m at level 100, k at level 200, only parsing).

(** ** The browser and the network *)

(** The [init] argument of [fetch]. [signal] is the delay, in ms, after
    which the controller of the attached [AbortSignal] is aborted by its
    timer; [None] when no signal is attached. *)
Record RequestInit : Type := {
  method : string;
  headers : gmap string string;
  body : option string;
  signal : option Z
}.

Record Request : Type := { url : string; init : RequestInit }.

(** [fetch(url)] and [fetch(url, { headers })]: a GET without a body. *)
Definition get_init (hs : gmap string string) : RequestInit :=
  {| method := "GET"; headers := hs; body := None; signal := None |}.

Record Response : Type := {
  status : Z;
  (** what [res.json()] parses the body to; [None] when it is not JSON *)
  json_body : option jsval
}.

(** [res.ok] *)
Definition ok (res : Response) : bool :=
  (200 <=? status res)%Z && (status res <=? 299)%Z.

(** What the network does with a request: after [latency] ms the fetch
    settles, with a response or with a network failure. *)
Record Reply : Type := { latency : Z; result : option Response }.

Definition Network : Type := Request -> Reply.

(** [window]: its location, its [localStorage], and how many times
    [window.location.reload()] ran. *)
Record Window : Type := {
  location_hostname : string;
  localStorage : gmap string string;
  reloads : nat
}.

(** [window] is [None] where [typeof window === 'undefined'] (no browser,
    hence no [localStorage] either); [sent] logs the calls of [fetch]. *)
Record World : Type := { window : option Window; sent : list Request }.

Definition with_window (w : World) (win : Window) : World :=
  {| window := Some win; sent := sent w |}.

(** ** [frontend/src/lib/api.ts] *)

Definition API_BASE (w : World) : string :=
  match window w with
  | Some win => "http://" ++ location_hostname win ++ ":8000"
  | None => "http://localhost:8000"
  end.

Definition TOKEN_KEY : string := "sentinel_token".

Definition getToken (w : World) : option string :=
  match window w with
  | None => None
  | Some win => localStorage win !! TOKEN_KEY
  end.

Definition localStorage_undefined : exn :=
  ReferenceError "localStorage is not defined".

Definition setToken (token : string) : M World unit :=
  fun w =>
    match window w with
    | None => (Throw localStorage_undefined, w)
    | Some win =>
        (Return tt,
         with_window w {| location_hostname := location_hostname win;
                          localStorage := <[TOKEN_KEY := token]> (localStorage win);
                          reloads := reloads win |})
    end.

Definition removeToken : M World unit :=
  fun w =>
    match window w with
    | None => (Throw localStorage_undefined, w)
    | Some win =>
        (Return tt,
         with_window w {| location_hostname := location_hostname win;
                          localStorage := delete TOKEN_KEY (localStorage win);
                          reloads := reloads win |})
    end.

(** Truthiness of a [string | null]. *)
Definition truthy_token (t : option string) : bool :=
  match t with
  | Some s => negb (String.eqb s "")
  | None => false
  end.

Definition isAuthenticated (w : World) : bool := truthy_token (getToken w).

Definition authHeaders (w : World) : gmap string string :=
  match getToken w with
  | Some token =>
      if truthy_token (Some token)
      then {[ "Authorization" := "Bearer " ++ token ]}
      else ∅
  | None => ∅
  end.

(** [{ ...base, ...extra }]: a later key overrides an earlier one. *)
Definition spread (base extra : gmap string string) : gmap string string :=
  extra ∪ base.

Definition json_headers : gmap string string :=
  {[ "Content-Type" := "application/json" ]}.

(** [if (typeof window !== 'undefined') window.location.reload()] *)
Definition reload_if_window : M World unit :=
  fun w =>
    match window w with
    | None => (Return tt, w)
    | Some win =>
        (Return tt,
         with_window w {| location_hostname := location_hostname win;
                          localStorage := localStorage win;
                          reloads := S (reloads win) |})
    end.

(** [res.json()] *)
Definition Response_json {S : Type} (res : Response) : M S jsval :=
  match json_body res with
  | Some v => ret v
  | None => throw (SyntaxError "Unexpected token in JSON")
  end.

(** [new Error(error.detail || fallback)] thrown for a response that is
    not ok, after [res.json().catch(() => ({ detail: fallback }))]. *)
Definition throw_detail {S A : Type} (res : Response) (fallback : string) : M S A :=
  let* error := try_catch (Response_json res)
             (fun _ => ret (VObj [("detail", VStr fallback)])) in
  let* detail := lift (Js.get error "detail") in
  throw (Error (Js.to_string (Js.or detail (VStr fallback)))).

Section Api.

Variable net : Network.

(** [await fetch(url, init)]: the call is logged; a fetch with a signal
    whose timer fires before the reply arrives rejects with an
    [AbortError]; a network failure rejects with a [TypeError]. *)
Definition fetch (u : string) (i : RequestInit) : M World Response :=
  fun w =>
    let req := {| url := u; init := i |} in
    let w' := {| window := window w; sent := sent w ++ [req] |} in
    let reply := net req in
    match signal i with
    | Some delay =>
        if (delay <=? latency reply)%Z then (Throw AbortError, w')
        else match result reply with
             | Some res => (Return res, w')
             | None => (Throw (TypeError "Failed to fetch"), w')
             end
    | None =>
        match result reply with
        | Some res => (Return res, w')
        | None => (Throw (TypeError "Failed to fetch"), w')
        end
    end.

Definition login (username password : string) : M World jsval :=
  let* res := (fun w =>
            fetch (API_BASE w ++ "/api/auth/login")
              {| method := "POST";
                 headers := json_headers;
                 body := Js.stringify (VObj [("username", VStr username);
                                             ("password", VStr password)]);
                 signal := None |} w) in
  if negb (ok res) then throw_detail res "Login failed"
  else
    let* data := Response_json res in
    let* access_token := lift (Js.get data "access_token") in
    let* _ := setToken (Js.to_string access_token) in
    ret data.

Definition logout : M World unit := removeToken.

Definition checkAuth : M World bool :=
  fun w =>
    if negb (truthy_token (getToken w)) then (Return false, w)
    else
      try_catch
        (let* res := fetch (API_BASE w ++ "/api/auth/me") (get_init (authHeaders w)) in
         ret (ok res))
        (fun _ => ret false) w.

Definition handleResponse (res : Response) : M World jsval :=
  if (status res =? 401)%Z then
    let* _ := removeToken in
    let* _ := reload_if_window in
    throw (Error "Session expired")
  else if negb (ok res) then throw_detail res "Request failed"
  else Response_json res.

Definition fetchLatestScan : M World jsval :=
  let* res := (fun w => fetch (API_BASE w ++ "/api/scan/latest")
                     (get_init (authHeaders w)) w) in
  handleResponse res.

Definition fetchStats : M World jsval :=
  let* res := (fun w => fetch (API_BASE w ++ "/api/stats")
                     (get_init (authHeaders w)) w) in
  handleResponse res.

Definition fetchOllamaStatus : M World jsval :=
  let* res := (fun w => fetch (API_BASE w ++ "/api/ollama/status") (get_init ∅) w) in
  handleResponse res.

Definition optional_string (s : option string) : jsval :=
  match s with
  | Some x => VStr x
  | None => VUndefined
  end.

Definition startScan (network : option string) : M World jsval :=
  let* res := (fun w =>
            fetch (API_BASE w ++ "/api/scan/start")
              {| method := "POST";
                 headers := spread json_headers (authHeaders w);
                 body := Js.stringify (VObj [("network", optional_string network);
                                             ("scan_ports", VBool true)]);
                 signal := None |} w) in
  handleResponse res.

(** [catch (e) { clearTimeout(timeout);
                 if (e.name === 'AbortError') throw new Error(...); throw e; }] *)
Definition timed_out {A : Type} (e : exn) : M World A :=
  if String.eqb (exn_name e) "AbortError"
  then throw (Error "AI request timed out")
  else throw e.

(** The promise of [handleResponse(res)] is returned from the [try]
    block without being awaited there, so only the [fetch] is guarded. *)
Definition fetchAISummary : M World jsval :=
  let timeout := 120000%Z in
  let* res := try_catch
           (fun w => fetch (API_BASE w ++ "/api/ai/quick-summary")
                       {| method := "GET";
                          headers := authHeaders w;
                          body := None;
                          signal := Some timeout |} w)
           timed_out in
  handleResponse res.

Definition fetchAIAnalysis (deviceIp : option string) : M World jsval :=
  let timeout := 180000%Z in
  let* res := try_catch
           (fun w => fetch (API_BASE w ++ "/api/ai/analyze")
                       {| method := "POST";
                          headers := spread json_headers (authHeaders w);
                          body := Js.stringify (VObj [("device_ip", optional_string deviceIp)]);
                          signal := Some timeout |} w)
           timed_out in
  handleResponse res.

(** A [number] interpolated into a template string, for the integral
    values below 10^21, which are written as decimal numerals. *)
Definition Number_toString (n : Z) : string := pretty n.

Definition fetchScanHistory (limit : option Z) : M World jsval :=
  let limit := default 50%Z limit in
  let* res := (fun w => fetch (API_BASE w ++ "/api/scan/history?limit=" ++ Number_toString limit)
                     (get_init (authHeaders w)) w) in
  handleResponse res.

Definition fetchHistoricalScan (scanId : Z) : M World jsval :=
  let* res := (fun w => fetch (API_BASE w ++ "/api/scan/history/" ++ Number_toString scanId)
                     (get_init (authHeaders w)) w) in
  handleResponse res.

Definition fetchAlerts (limit : option Z) : M World jsval :=
  let limit := default 100%Z limit in
  let* res := (fun w => fetch (API_BASE w ++ "/api/alerts?limit=" ++ Number_toString limit)
                     (get_init (authHeaders w)) w) in
  handleResponse res.

Definition configureDiscordWebhook (webhookUrl : string) : M World jsval :=
  let* res := (fun w =>
            fetch (API_BASE w ++ "/api/settings/discord")
              {| method := "POST";
                 headers := spread json_headers (authHeaders w);
                 body := Js.stringify (VObj [("webhook_url", VStr webhookUrl)]);
                 signal := None |} w) in
  handleResponse res.

Definition testDiscordWebhook : M World jsval :=
  let* res := (fun w =>
            fetch (API_BASE w ++ "/api/settings/discord/test")
              {| method := "POST"; headers := authHeaders w;
                 body := None; signal := None |} w) in
  handleResponse res.

Definition getDiscordSettings : M World jsval :=
  let* res := (fun w => fetch (API_BASE w ++ "/api/settings/discord")
                     (get_init (authHeaders w)) w) in
  handleResponse res.

End Api.

(** *** Utility functions *)

Definition getRiskColor (level : string) : string :=
  if String.eqb level "HIGH" then "text-cyber-red"
  else if String.eqb level "MEDIUM" then "text-cyber-yellow"
  else if String.eqb level "LOW" then "text-cyber-blue"
  else "text-cyber-green".

Definition getRiskBgColor (level : string) : string :=
  if String.eqb level "HIGH" then "bg-cyber-red/20 border-cyber-red"
  else if String.eqb level "MEDIUM" then "bg-cyber-yellow/20 border-cyber-yellow"
  else if String.eqb level "LOW" then "bg-cyber-blue/20 border-cyber-blue"
  else "bg-cyber-green/20 border-cyber-green".

(** The class names [DeviceCard] computes from [device.risk.level]: the
    card, the status dot and the level label. *)
Definition DeviceCard_classes (level : string) : string * string * string :=
  ("p-4 rounded-lg border cursor-pointer transition-all " ++ getRiskBgColor level ++ " card-hover",
   "w-3 h-3 rounded-full " ++
     (if String.eqb level "HIGH" then "bg-cyber-red animate-pulse"
      else if String.eqb level "MEDIUM" then "bg-cyber-yellow"
      else "bg-cyber-green"),
   "text-sm font-medium " ++ getRiskColor level).

(** *** Interfaces

    The client's TypeScript interfaces as records, each with the JavaScript
    object that inhabits it. *)

Inductive RiskLevel : Type := HIGH | MEDIUM | LOW | MINIMAL.

Definition RiskLevel_name (l : RiskLevel) : string :=
  match l with
  | HIGH => "HIGH"
  | MEDIUM => "MEDIUM"
  | LOW => "LOW"
  | MINIMAL => "MINIMAL"
  end.

Module Device.

Record port_entry : Type := { port : Z; service : string }.

Record risk_t : Type := {
  score : Z;
  level : RiskLevel;
  reasons : list string
}.

Record t : Type := {
  ip : string;
  mac : string;
  hostname : option string;
  vendor : string;
  ports : list port_entry;
  risk : risk_t
}.

Definition port_entry_value (p : port_entry) : jsval :=
  VObj [("port", VNum (port p)); ("service", VStr (service p))].

Definition risk_value (r : risk_t) : jsval :=
  VObj [("score", VNum (score r));
        ("level", VStr (RiskLevel_name (level r)));
        ("reasons", VArr (map VStr (reasons r)))].

Definition value (d : t) : jsval :=
  VObj [("ip", VStr (ip d));
        ("mac", VStr (mac d));
        ("hostname", match hostname d with Some h => VStr h | None => VNull end);
        ("vendor", VStr (vendor d));
        ("ports", VArr (map port_entry_value (ports d)));
        ("risk", risk_value (risk d))].

End Device.

Module ScanResults.

Record t : Type := {
  scan_time : string;
  network : string;
  device_count : Z;
  devices : list Device.t
}.

Definition value (r : t) : jsval :=
  VObj [("scan_time", VStr (scan_time r));
        ("network", VStr (network r));
        ("device_count", VNum (device_count r));
        ("devices", VArr (map Device.value (devices r)))].

End ScanResults.

Module ScanHistoryItem.

Record t : Type := {
  id : Z;
  scan_time : string;
  network : string;
  device_count : Z;
  high_risk_count : Z;
  medium_risk_count : Z;
  low_risk_count : Z;
  minimal_risk_count : Z;
  total_open_ports : Z;
  created_at : string
}.

Definition value (h : t) : jsval :=
  VObj [("id", VNum (id h));
        ("scan_time", VStr (scan_time h));
        ("network", VStr (network h));
        ("device_count", VNum (device_count h));
        ("high_risk_count", VNum (high_risk_count h));
        ("medium_risk_count", VNum (medium_risk_count h));
        ("low_risk_count", VNum (low_risk_count h));
        ("minimal_risk_count", VNum (minimal_risk_count h));
        ("total_open_ports", VNum (total_open_ports h));
        ("created_at", VStr (created_at h))].

(** The value [fetchScanHistory] promises: [{ scans, count }]. *)
Definition page_value (scans : list t) (count : Z) : jsval :=
  VObj [("scans", VArr (map value scans)); ("count", VNum count)].

End ScanHistoryItem.

(** ** The wire contract of a device

    The shape language in which the interface section of the specification
    writes a JSON object; [SAny] stands where it gives a field no type. *)

Inductive shape : Type :=
| SAny
| SString
| SNumber
| SNull
| SEnum (names : list string)
| SEither (a b : shape)
| SList (elt : shape)
| SFields (fields : list (string * shape)).

(** The wire contract in the specification's words: the device shape
    [{ip, mac, hostname|null, vendor, ports:[{port, service}],
    risk:{score, level, reasons:[string]}}], with [score: number] and
    [level: enum{HIGH, MEDIUM, LOW, MINIMAL}] from its data model. *)
Definition Device_wire_contract : shape :=
  SFields [("ip", SAny);
           ("mac", SAny);
           ("hostname", SEither SAny SNull);
           ("vendor", SAny);
           ("ports", SList (SFields [("port", SAny); ("service", SAny)]));
           ("risk", SFields [("score", SNumber);
                             ("level", SEnum ["HIGH"; "MEDIUM"; "LOW"; "MINIMAL"]);
                             ("reasons", SList SString)])].

(** The [Device] interface of [api.ts], in the same language. *)
Definition Device_interface : shape :=
  SFields [("ip", SString);
           ("mac", SString);
           ("hostname", SEither SString SNull);
           ("vendor", SString);
           ("ports", SList (SFields [("port", SNumber); ("service", SString)]));
           ("risk", SFields [("score", SNumber);
                             ("level", SEnum ["HIGH"; "MEDIUM"; "LOW"; "MINIMAL"]);
                             ("reasons", SList SString)])].

Definition string_in (s : string) (l : list string) : bool :=
  existsb (String.eqb s) l.

(** [conforms sh v]: the value has the shape, an object having exactly the
    listed fields, in the listed order. *)
Fixpoint conforms (sh : shape) (v : jsval) {struct sh} : bool :=
  match sh with
  | SAny => true
  | SString => match v with VStr _ => true | _ => false end
  | SNumber => match v with VNum _ => true | _ => false end
  | SNull => match v with VNull => true | _ => false end
  | SEnum names => match v with VStr s => string_in s names | _ => false end
  | SEither a b => conforms a v || conforms b v
  | SList elt => match v with VArr xs => forallb (conforms elt) xs | _ => false end
  | SFields fields =>
      match v with
      | VObj props =>
          (fix go (fs : list (string * shape)) (ps : list (string * jsval)) : bool :=
             match fs, ps with
             | [], [] => true
             | (k, sh') :: fs', (k', v') :: ps' =>
                 String.eqb k k' && conforms sh' v' && go fs' ps'
             | _, _ => false
             end) fields props
      | _ => false
      end
  end.

(** [refines a b]: shape [a] names the same fields as [b] and gives each a
    type that [b] allows. *)
Fixpoint refines (a b : shape) {struct a} : bool :=
  match b with
  | SAny => true
  | _ =>
      match a, b with
      | SString, SString | SNumber, SNumber | SNull, SNull => true
      | SEnum xs, SEnum ys => forallb (fun x => string_in x ys) xs
                               && forallb (fun y => string_in y xs) ys
      | SEither a1 a2, SEither b1 b2 => refines a1 b1 && refines a2 b2
      | SList ea, SList eb => refines ea eb
      | SFields fa, SFields fb =>
          (fix go (fa : list (string * shape)) (fb : list (string * shape)) : bool :=
             match fa, fb with
             | [], [] => true
             | (k, x) :: fa', (k', y) :: fb' =>
                 String.eqb k k' && refines x y && go fa' fb'
             | _, _ => false
             end) fa fb
      | _, _ => false
      end
  end.

(** ** The dashboard page

    The state of the [Dashboard] component that [handleScan] reads and
    writes, and the two timers it arms. Each timer callback is taken to run
    to completion before the next timer fires. *)

Record Dashboard : Type := {
  scanResults : jsval;          (* ScanResults | null *)
  stats : jsval;                (* Stats | null *)
  scanHistory : jsval;          (* ScanHistoryItem[] *)
  loading : bool;
  scanning : bool;
  error : option string
}.

(** [interval]: the period of the [checkScan] interval while it is armed;
    [timeout]: the delay of the pending cut-off. *)
Record Timers : Type := { interval : option Z; timeout : option Z }.

Record App : Type := { ui : Dashboard; world : World; timers : Timers }.

Definition update_ui (f : Dashboard -> Dashboard) : M App unit :=
  fun a => (Return tt, {| ui := f (ui a); world := world a; timers := timers a |}).

Definition setScanResults (v : jsval) : M App unit :=
  update_ui (fun d => {| scanResults := v; stats := stats d;
                         scanHistory := scanHistory d; loading := loading d;
                         scanning := scanning d; error := error d |}).

Definition setStats (v : jsval) : M App unit :=
  update_ui (fun d => {| scanResults := scanResults d; stats := v;
                         scanHistory := scanHistory d; loading := loading d;
                         scanning := scanning d; error := error d |}).

Definition setScanHistory (v : jsval) : M App unit :=
  update_ui (fun d => {| scanResults := scanResults d; stats := stats d;
                         scanHistory := v; loading := loading d;
                         scanning := scanning d; error := error d |}).

Definition setScanning (b : bool) : M App unit :=
  update_ui (fun d => {| scanResults := scanResults d; stats := stats d;
                         scanHistory := scanHistory d; loading := loading d;
                         scanning := b; error := error d |}).

Definition setError (e : option string) : M App unit :=
  update_ui (fun d => {| scanResults := scanResults d; stats := stats d;
                         scanHistory := scanHistory d; loading := loading d;
                         scanning := scanning d; error := e |}).

Definition setInterval (period : Z) : M App unit :=
  fun a => (Return tt, {| ui := ui a; world := world a;
                          timers := {| interval := Some period;
                                       timeout := timeout (timers a) |} |}).

Definition setTimeout (delay : Z) : M App unit :=
  fun a => (Return tt, {| ui := ui a; world := world a;
                          timers := {| interval := interval (timers a);
                                       timeout := Some delay |} |}).

Definition clearInterval : M App unit :=
  fun a => (Return tt, {| ui := ui a; world := world a;
                          timers := {| interval := None;
                                       timeout := timeout (timers a) |} |}).

(** An API call made from the page. *)
Definition api {A : Type} (m : M World A) : M App A :=
  fun a =>
    let '(r, w') := m (world a) in
    (r, {| ui := ui a; world := w'; timers := timers a |}).

(** [newResults.scan_time !== scanResults?.scan_time] *)
Definition scan_time_differs (newResults shown : jsval) : completion bool :=
  match Js.get newResults "scan_time" with
  | Return t => Return (negb (Js.strict_eq t (Js.get_opt shown "scan_time")))
  | Throw e => Throw e
  end.

(** The callback of [setInterval]. [shown] is the [scanResults] that the
    closure of [handleScan] captured when it was invoked. *)
Definition checkScan (shown : jsval) (net : Network) : M App unit :=
  try_catch
    (let* newResults := api (fetchLatestScan net) in
     let* differs := lift (scan_time_differs newResults shown) in
     if differs then
       let* _ := setScanResults newResults in
       let* newStats := api (fetchStats net) in
       let* _ := setStats newStats in
       let* historyData := api (fetchScanHistory net (Some 10%Z)) in
       let* scans := lift (Js.get historyData "scans") in
       let* _ := setScanHistory scans in
       let* _ := setScanning false in
       clearInterval
     else ret tt)
    (fun _ => ret tt).

(** The callback of [setTimeout]. *)
Definition stopPolling : M App unit :=
  let* _ := clearInterval in
  setScanning false.

Definition handleScan (net : Network) : M App unit :=
  let* _ := setScanning true in
  let* _ := setError None in
  try_catch
    (let* _ := api (startScan net None) in
     let* _ := setInterval 3000 in
     setTimeout 120000)
    (fun _ =>
       let* _ := setError (Some "Failed to start scan. Make sure the backend has sudo access.") in
       setScanning false).

(** What the event loop does after [handleScan]: the interval fires, with
    the network as it is at that moment, or the cut-off fires. A cleared
    interval and a spent cut-off do nothing. *)
Inductive timer_event : Type :=
| IntervalFires (net : Network)
| TimeoutFires.

Definition fire (shown : jsval) (ev : timer_event) (a : App) : App :=
  match ev with
  | IntervalFires net =>
      match interval (timers a) with
      | Some _ => snd (checkScan shown net a)
      | None => a
      end
  | TimeoutFires =>
      match timeout (timers a) with
      | Some _ =>
          let a' := snd (stopPolling a) in
          {| ui := ui a'; world := world a';
             timers := {| interval := interval (timers a'); timeout := None |} |}
      | None => a
      end
  end.

Definition run_events (shown : jsval) (evs : list timer_event) (a : App) : App :=
  fold_left (fun acc ev => fire shown ev acc) evs a.

(** Scan times are ISO-8601 strings, ordered as strings. *)
Definition scan_time_lt (s t : string) : bool := String.ltb s t.

(** [scan_time] strictly increases with each completed scan. *)
Fixpoint strictly_increasing (times : list string) : bool :=
  match times with
  | [] => true
  | s :: rest =>
      match rest with
      | [] => true
      | t :: _ => scan_time_lt s t && strictly_increasing rest
      end
  end.

(** ** RiskScorer *)

Module RiskScorer.

(** Modelled from the spec: the scorer ([scanner/network_scanner.py]) is
    not among the sources. These are the facts the specification's
    RiskScorer section lets it read: the open ports with their services,
    the vendor, whether the hostname resolved, and whether the device was
    in the previous snapshot. *)
Record facts : Type := {
  open_ports : list (Z * string);
  vendor : string;
  hostname_resolved : bool;
  previously_seen : bool
}.

(** Modelled from the spec: one row of the single rule table (rule,
    predicate, weight, reason) the specification asks for; the scorer's
    own table is not among the sources, so the table is a parameter. *)
Record rule : Type := {
  fires : facts -> bool;
  weight : Z;
  reason : string
}.

Definition SCORE_MIN : Z := 0.
Definition SCORE_MAX : Z := 100.
Definition HIGH_THRESHOLD : Z := 70.
Definition MEDIUM_THRESHOLD : Z := 40.
Definition LOW_THRESHOLD : Z := 15.

(** Modelled from the spec: all applicable rules fire, in table order. *)
Definition fired (table : list rule) (f : facts) : list rule :=
  List.filter (fun r => fires r f) table.

Definition sum_weights (rs : list rule) : Z :=
  fold_right (fun r acc => weight r + acc)%Z 0%Z rs.

Definition clamp (lo hi x : Z) : Z := Z.max lo (Z.min hi x).

(** Modelled from the spec: the score is the sum of the fired weights,
    clamped to [0, 100]. *)
Definition score (table : list rule) (f : facts) : Z :=
  clamp SCORE_MIN SCORE_MAX (sum_weights (fired table f)).

(** Modelled from the spec: score >= 70 is HIGH, >= 40 MEDIUM, >= 15 LOW,
    else MINIMAL. *)
Definition level_of (s : Z) : RiskLevel :=
  if (HIGH_THRESHOLD <=? s)%Z then HIGH
  else if (MEDIUM_THRESHOLD <=? s)%Z then MEDIUM
  else if (LOW_THRESHOLD <=? s)%Z then LOW
  else MINIMAL.

(** Modelled from the spec: the assessment of a device, its reasons in
    rule evaluation order. *)
Definition assess (table : list rule) (f : facts) : Device.risk_t :=
  {| Device.score := score table f;
     Device.level := level_of (score table f);
     Device.reasons := map reason (fired table f) |}.

(** A table with one admissible choice of weights, for evaluation. *)
Definition has_port (ps : list Z) (f : facts) : bool :=
  existsb (fun p => existsb (Z.eqb (fst p)) ps) (open_ports f).

Definition sample_table : list rule :=
  [ {| fires := has_port [23; 21; 445];
       weight := 70; reason := "high-risk service exposed" |};
    {| fires := has_port [22; 3389; 5900];
       weight := 40; reason := "remote-management port exposed" |};
    {| fires := fun f => negb (previously_seen f);
       weight := 15; reason := "new device on network" |};
    {| fires := fun f => String.eqb (vendor f) "Unknown" || negb (hostname_resolved f);
       weight := 10; reason := "unknown vendor or unresolved hostname" |} ].

End RiskScorer.

(** ** The calls to the endpoints of the interface table

    Every exported function of [api.ts] that requests an endpoint of the
    specification's HTTP table, login apart. *)

Inductive protected_call : Type :=
| FetchLatestScan
| StartScan (network : option string)
| FetchAISummary
| FetchAIAnalysis (deviceIp : option string)
| FetchScanHistory (limit : option Z)
| FetchHistoricalScan (scanId : Z)
| FetchAlerts (limit : option Z)
| ConfigureDiscordWebhook (webhookUrl : string)
| TestDiscordWebhook
| GetDiscordSettings.

Definition perform (net : Network) (c : protected_call) : M World jsval :=
  match c with
  | FetchLatestScan => fetchLatestScan net
  | StartScan network => startScan net network
  | FetchAISummary => fetchAISummary net
  | FetchAIAnalysis deviceIp => fetchAIAnalysis net deviceIp
  | FetchScanHistory limit => fetchScanHistory net limit
  | FetchHistoricalScan scanId => fetchHistoricalScan net scanId
  | FetchAlerts limit => fetchAlerts net limit
  | ConfigureDiscordWebhook webhookUrl => configureDiscordWebhook net webhookUrl
  | TestDiscordWebhook => testDiscordWebhook net
  | GetDiscordSettings => getDiscordSettings net
  end.

(** The world once [req] has been handed to [fetch]. *)
Definition logged (w : World) (req : Request) : World :=
  {| window := window w; sent := sent w ++ [req] |}.

(** The properties [JSON.stringify] writes for the body of [startScan]. *)
Definition scan_request_props (network : option string) : list (string * jsval) :=
  match network with
  | Some n => [("network", VStr n); ("scan_ports", VBool true)]
  | None => [("scan_ports", VBool true)]
  end.

(** The requests the client hands to [fetch]. *)
Definition login_request (w : World) (username password : string) : Request :=
  {| url := API_BASE w ++ "/api/auth/login";
     init := {| method := "POST";
                headers := json_headers;
                body := Js.stringify (VObj [("username", VStr username);
                                            ("password", VStr password)]);
                signal := None |} |}.

Definition summary_request (w : World) : Request :=
  {| url := API_BASE w ++ "/api/ai/quick-summary";
     init := {| method := "GET"; headers := authHeaders w;
                body := None; signal := Some 120000 |} |}.

Definition analysis_request (w : World) (deviceIp : option string) : Request :=
  {| url := API_BASE w ++ "/api/ai/analyze";
     init := {| method := "POST";
                headers := spread json_headers (authHeaders w);
                body := Js.stringify (VObj [("device_ip", optional_string deviceIp)]);
                signal := Some 180000 |} |}.

Definition startScan_request (w : World) (network : option string) : Request :=
  {| url := API_BASE w ++ "/api/scan/start";
     init := {| method := "POST";
                headers := spread json_headers (authHeaders w);
                body := Js.stringify (VObj (scan_request_props network));
                signal := None |} |}.

Definition history_request (w : World) (limit : option Z) : Request :=
  {| url := API_BASE w ++ "/api/scan/history?limit=" ++ Number_toString (default 50%Z limit);
     init := get_init (authHeaders w) |}.

(** What a fetch that was not aborted hands on. *)
Definition settled (reply : Reply) (w : World) : completion jsval * World :=
  match result reply with
  | Some res => handleResponse res w
  | None => (Throw (TypeError "Failed to fetch"), w)
  end.

(** The window once the session has expired: the token is gone and the
    page has been reloaded. *)
Definition expired (win : Window) : Window :=
  {| location_hostname := location_hostname win;
     localStorage := delete TOKEN_KEY (localStorage win);
     reloads := S (reloads win) |}.

(** Sample worlds and networks on which the functions are evaluated. *)
Definition sample_window (storage : gmap string string) : Window :=
  {| location_hostname := "sentinel.local"; localStorage := storage; reloads := 0 |}.

Definition signed_in : World :=
  {| window := Some (sample_window {[ TOKEN_KEY := "eyJhbGciOi" ]}); sent := [] |}.

Definition signed_out : World :=
  {| window := Some (sample_window ∅); sent := [] |}.

Definition replies (delay : Z) (code : Z) (v : jsval) : Network :=
  fun _ => {| latency := delay;
              result := Some {| status := code; json_body := Some v |} |}.

Definition unreachable : Network :=
  fun _ => {| latency := 5; result := None |}.

(** ** Polling runs *)

Definition latest_request (w : World) : Request :=
  {| url := API_BASE w ++ "/api/scan/latest"; init := get_init (authHeaders w) |}.

Definition stats_request (w : World) : Request :=
  {| url := API_BASE w ++ "/api/stats"; init := get_init (authHeaders w) |}.

Definition json_response (v : jsval) : Response :=
  {| status := 200; json_body := Some v |}.

(** The timers [handleScan] arms once the scan has started. *)
Definition armed : Timers := {| interval := Some 3000; timeout := Some 120000 |}.

(** What a poll that reports completion leaves on the page. *)
Definition completed (d : Dashboard) (newResults newStats scans : jsval) : Dashboard :=
  {| scanResults := newResults; stats := newStats; scanHistory := scans;
     loading := loading d; scanning := false; error := error d |}.

(** A poll of a healthy backend whose latest scan was taken at [t]: the
    three requests of [checkScan] are answered, the first with a scan
    result whose [scan_time] is [t]. *)
Definition serves (net : Network) (w : World) (t : string)
    (latest newStats history scans : jsval) : Prop :=
  result (net (latest_request w)) = Some (json_response latest)
  /\ result (net (stats_request w)) = Some (json_response newStats)
  /\ result (net (history_request w (Some 10%Z))) = Some (json_response history)
  /\ Js.get latest "scan_time" = Return (VStr t)
  /\ Js.get history "scans" = Return scans.





Definition dashboard_showing (v : jsval) : Dashboard :=
  {| scanResults := v; stats := VNull; scanHistory := VArr [];
     loading := false; scanning := false; error := None |}.

Definition idle_app (v : jsval) : App :=
  {| ui := dashboard_showing v; world := signed_in;
     timers := {| interval := None; timeout := None |} |}.

Definition scan_taken_at (t : string) : jsval :=
  VObj [("scan_time", VStr t); ("network", VStr "192.168.1.0/24");
        ("device_count", VNum 0); ("devices", VArr []); ("scans", VArr [])].






(** ** The rest of the client *)

(** What [localStorage.getItem(key)] would read in the world. *)
Definition stored (w : World) (key : string) : option string :=
  match window w with
  | Some win => localStorage win !! key
  | None => None
  end.

(** The request each protected call hands to [fetch]. *)
Definition request_of (w : World) (c : protected_call) : Request :=
  match c with
  | FetchLatestScan => latest_request w
  | StartScan network => startScan_request w network
  | FetchAISummary => summary_request w
  | FetchAIAnalysis deviceIp => analysis_request w deviceIp
  | FetchScanHistory limit => history_request w limit
  | FetchHistoricalScan scanId =>
      {| url := API_BASE w ++ "/api/scan/history/" ++ Number_toString scanId;
         init := get_init (authHeaders w) |}
  | FetchAlerts limit =>
      {| url := API_BASE w ++ "/api/alerts?limit=" ++ Number_toString (default 100%Z limit);
         init := get_init (authHeaders w) |}
  | ConfigureDiscordWebhook webhookUrl =>
      {| url := API_BASE w ++ "/api/settings/discord";
         init := {| method := "POST";
                    headers := spread json_headers (authHeaders w);
                    body := Js.stringify (VObj [("webhook_url", VStr webhookUrl)]);
                    signal := None |} |}
  | TestDiscordWebhook =>
      {| url := API_BASE w ++ "/api/settings/discord/test";
         init := {| method := "POST"; headers := authHeaders w;
                    body := None; signal := None |} |}
  | GetDiscordSettings =>
      {| url := API_BASE w ++ "/api/settings/discord";
         init := get_init (authHeaders w) |}
  end.

(** The timer of the request's signal fires before the reply arrives. *)
Definition aborted (reply : Reply) (req : Request) : bool :=
  match signal (init req) with
  | Some delay => (delay <=? latency reply)%Z
  | None => false
  end.

Definition me_request (w : World) : Request :=
  {| url := API_BASE w ++ "/api/auth/me"; init := get_init (authHeaders w) |}.

Definition ollama_request (w : World) : Request :=
  {| url := API_BASE w ++ "/api/ollama/status"; init := get_init ∅ |}.

(** *** [downloadPdfReport] *)

(** What the browser saves when the anchor is clicked: the file name and
    the response whose blob the object URL points to. *)
Record Download : Type := { download_name : string; download_blob : Response }.

(** [s.split('T')[0]] *)
Fixpoint before_T (s : string) : string :=
  match s with
  | EmptyString => ""
  | String c rest => if Ascii.eqb c "T" then "" else String c (before_T rest)
  end.

(** A [boolean] interpolated into a template string. *)
Definition Boolean_toString (b : bool) : string := if b then "true" else "false".

Definition pdf_request (w : World) (includeAi : bool) : Request :=
  {| url := API_BASE w ++ "/api/report/pdf?include_ai=" ++ Boolean_toString includeAi;
     init := get_init (authHeaders w) |}.

(** [downloadPdfReport] returns at once; this is what its promise chain
    has done when it has run: the fetch, [res.blob()] of whatever response
    came, and the click on an anchor named after the day of [now], the
    value of [new Date().toISOString()]. A rejected fetch, and a missing
    [window], end the chain without a download. *)
Definition downloadPdfReport (net : Network) (includeAi : option bool) (now : string)
    (w : World) : World * option Download :=
  let includeAi := default false includeAi in
  match fetch net (API_BASE w ++ "/api/report/pdf?include_ai=" ++ Boolean_toString includeAi)
          (get_init (authHeaders w)) w with
  | (Return res, w') =>
      match window w' with
      | Some _ =>
          (w', Some {| download_name := "network-sentinel-report-" ++ before_T now ++ ".pdf";
                       download_blob := res |})
      | None => (w', None)
      end
  | (Throw _, w') => (w', None)
  end.

Definition has_no_T (s : string) : bool :=
  forallb (fun c => negb (Ascii.eqb c "T")) (list_ascii_of_string s).

(** *** The login page and the [Home] component *)

Module LoginPage.

Record state : Type := {
  username : string;
  password : string;
  error : string;
  loading : bool
}.

Definition setError (e : string) (s : state) : state :=
  {| username := username s; password := password s; error := e; loading := loading s |}.

Definition setLoading (b : bool) (s : state) : state :=
  {| username := username s; password := password s; error := error s; loading := b |}.

End LoginPage.

Module Home.

(** [authenticated] is [null] until [checkAuth] has answered. *)
Record state : Type := {
  authenticated : option bool;
  login_page : LoginPage.state;
  tab : World
}.

Inductive screen : Type := Spinner | DashboardScreen | LoginScreen.

(** What [Home] returns. *)
Definition render (s : state) : screen :=
  match authenticated s with
  | None => Spinner
  | Some true => DashboardScreen
  | Some false => LoginScreen
  end.

Definition setAuthenticated (b : bool) : M state unit :=
  fun s => (Return tt, {| authenticated := Some b; login_page := login_page s; tab := tab s |}).

Definition update_login_page (f : LoginPage.state -> LoginPage.state) : M state unit :=
  fun s => (Return tt, {| authenticated := authenticated s;
                          login_page := f (login_page s); tab := tab s |}).

(** An API call made from the component. *)
Definition call {A : Type} (m : M World A) : M state A :=
  fun s =>
    let '(r, w') := m (tab s) in
    (r, {| authenticated := authenticated s; login_page := login_page s; tab := w' |}).

(** [useEffect(() => { checkAuth().then(setAuthenticated) }, [])] *)
Definition mount (net : Network) : M state unit :=
  let* ok := call (checkAuth net) in
  setAuthenticated ok.

Definition handleLogin : M state unit := setAuthenticated true.

Definition handleLogout : M state unit :=
  let* _ := call logout in
  setAuthenticated false.

(** [LoginPage]'s [handleSubmit], with [onLogin] bound to [handleLogin];
    the [finally] block runs after either branch. *)
Definition handleSubmit (net : Network) : M state unit :=
  let* _ := update_login_page (LoginPage.setError "") in
  let* _ := update_login_page (LoginPage.setLoading true) in
  let* _ := try_catch
              (fun s =>
                 (let* _ := call (login net (LoginPage.username (login_page s))
                                    (LoginPage.password (login_page s))) in
                  handleLogin) s)
              (fun err =>
                 update_login_page
                   (LoginPage.setError (if String.eqb (exn_message err) ""
                                        then "Login failed" else exn_message err))) in
  update_login_page (LoginPage.setLoading false).

End Home.

(** *** The other panels of the dashboard *)

(** The state of [Dashboard] beside what [handleScan] uses. *)
Record Panels : Type := {
  ollamaStatus : jsval;         (* OllamaStatus | null *)
  aiSummary : jsval;            (* AISummary | null *)
  aiAnalysis : jsval;           (* string | null *)
  analyzing : bool;
  showSettings : bool;
  showHistory : bool;
  discordWebhook : string;
  discordConfigured : jsval     (* boolean *)
}.

(** [alerted]: the messages passed to [alert]. *)
Record Browser : Type := { app : App; panels : Panels; alerted : list string }.

Definition in_app {A : Type} (m : M App A) : M Browser A :=
  fun b =>
    let '(r, a') := m (app b) in
    (r, {| app := a'; panels := panels b; alerted := alerted b |}).

Definition update_panels (f : Panels -> Panels) : M Browser unit :=
  fun b => (Return tt, {| app := app b; panels := f (panels b); alerted := alerted b |}).

Definition alert (msg : string) : M Browser unit :=
  fun b => (Return tt, {| app := app b; panels := panels b;
                          alerted := alerted b ++ [msg] |}).

Definition setLoading (v : bool) : M App unit :=
  update_ui (fun d => {| scanResults := scanResults d; stats := stats d;
                         scanHistory := scanHistory d; loading := v;
                         scanning := scanning d; error := error d |}).

Definition setOllamaStatus (v : jsval) : M Browser unit :=
  update_panels (fun p => {| ollamaStatus := v; aiSummary := aiSummary p;
                             aiAnalysis := aiAnalysis p; analyzing := analyzing p;
                             showSettings := showSettings p; showHistory := showHistory p;
                             discordWebhook := discordWebhook p;
                             discordConfigured := discordConfigured p |}).

Definition setAiSummary (v : jsval) : M Browser unit :=
  update_panels (fun p => {| ollamaStatus := ollamaStatus p; aiSummary := v;
                             aiAnalysis := aiAnalysis p; analyzing := analyzing p;
                             showSettings := showSettings p; showHistory := showHistory p;
                             discordWebhook := discordWebhook p;
                             discordConfigured := discordConfigured p |}).

Definition setAiAnalysis (v : jsval) : M Browser unit :=
  update_panels (fun p => {| ollamaStatus := ollamaStatus p; aiSummary := aiSummary p;
                             aiAnalysis := v; analyzing := analyzing p;
                             showSettings := showSettings p; showHistory := showHistory p;
                             discordWebhook := discordWebhook p;
                             discordConfigured := discordConfigured p |}).

Definition setAnalyzing (v : bool) : M Browser unit :=
  update_panels (fun p => {| ollamaStatus := ollamaStatus p; aiSummary := aiSummary p;
                             aiAnalysis := aiAnalysis p; analyzing := v;
                             showSettings := showSettings p; showHistory := showHistory p;
                             discordWebhook := discordWebhook p;
                             discordConfigured := discordConfigured p |}).

Definition setDiscordConfigured (v : jsval) : M Browser unit :=
  update_panels (fun p => {| ollamaStatus := ollamaStatus p; aiSummary := aiSummary p;
                             aiAnalysis := aiAnalysis p; analyzing := analyzing p;
                             showSettings := showSettings p; showHistory := showHistory p;
                             discordWebhook := discordWebhook p;
                             discordConfigured := v |}).

(** [p.catch(() => v)] *)
Definition or_else {S : Type} (m : M S jsval) (v : jsval) : M S jsval :=
  try_catch m (fun _ => ret v).

(** [Promise.all([...])] of [loadData]. Building the array runs each of
    the five calls up to its [fetch], so the five requests leave, in array
    order and with the headers of that moment, before any response is
    read; each response then goes through [handleResponse], a failure
    being replaced by its default. The responses are read here in array
    order; reading them in another order ends in the same world and the
    same values. *)
Definition load_all (net : Network) : M World (jsval * jsval * jsval * jsval * jsval) :=
  fun w =>
    let r1 := latest_request w in
    let r2 := stats_request w in
    let r3 := ollama_request w in
    let r4 := history_request w (Some 10%Z) in
    let r5 := request_of w GetDiscordSettings in
    (let* scanData := or_else (settled (net r1)) VNull in
     let* statsData := or_else (settled (net r2)) VNull in
     let* ollamaData := or_else (settled (net r3)) VNull in
     let* historyData := or_else (settled (net r4)) (VObj [("scans", VArr [])]) in
     let* discordData := or_else (settled (net r5)) (VObj [("configured", VBool false)]) in
     ret (scanData, statsData, ollamaData, historyData, discordData))
      (logged (logged (logged (logged (logged w r1) r2) r3) r4) r5).

Definition loadData (net : Network) : M Browser unit :=
  let* _ := in_app (setLoading true) in
  let* _ := in_app (setError None) in
  let* _ :=
    try_catch
      (let* loaded := in_app (api (load_all net)) in
       let '(scanData, statsData, ollamaData, historyData, discordData) := loaded in
       let* _ := in_app (setScanResults scanData) in
       let* _ := in_app (setStats statsData) in
       let* _ := setOllamaStatus ollamaData in
       let* scans := lift (Js.get historyData "scans") in
       let* _ := in_app (setScanHistory scans) in
       let* configured := lift (Js.get discordData "configured") in
       setDiscordConfigured configured)
      (fun _ => in_app (setError (Some "Failed to load data. Is the backend running?"))) in
  in_app (setLoading false).

(** The two awaits of [handleAIAnalysis] meet the network at different
    moments: [net1] answers the summary, [net2] the analysis. *)
Definition handleAIAnalysis (net1 net2 : Network) : M Browser unit :=
  let* _ := setAnalyzing true in
  let* _ := setAiAnalysis VNull in
  let* _ := setAiSummary VNull in
  let* _ := in_app (setError None) in
  let* _ :=
    try_catch
      (let* _ := setAiAnalysis (VStr "Generating summary...") in
       let* summary := in_app (api (fetchAISummary net1)) in
       let* _ := setAiSummary summary in
       let* _ := setAiAnalysis
                   (VStr "Generating detailed analysis... (this may take 30-60 seconds)") in
       let* analysis := in_app (api (fetchAIAnalysis net2 None)) in
       let* text := lift (Js.get analysis "analysis") in
       setAiAnalysis text)
      (fun _ =>
         let* _ := in_app (setError (Some "AI analysis failed. Ollama may be slow - try again.")) in
         setAiAnalysis VNull) in
  setAnalyzing false.

Definition handleSaveDiscord (net : Network) : M Browser unit :=
  try_catch
    (fun b =>
       (let* _ := in_app (api (configureDiscordWebhook net (discordWebhook (panels b)))) in
        let* _ := setDiscordConfigured (VBool true) in
        let* _ := in_app (setError None) in
        alert "Discord webhook configured successfully!") b)
    (fun _ => in_app (setError (Some "Failed to save Discord webhook"))).

Definition handleTestDiscord (net : Network) : M Browser unit :=
  try_catch
    (let* _ := in_app (api (testDiscordWebhook net)) in
     alert "Test notification sent to Discord!")
    (fun _ => in_app (setError (Some "Failed to send test notification. Check webhook URL."))).

(** What [handleResponse(res).catch(() => v)] yields for a reply, and what
    it does to the world. *)
Definition read_or (v : jsval) (reply : Reply) : jsval :=
  match result reply with
  | Some res => if ok res then default v (json_body res) else v
  | None => v
  end.

Definition expire_if_401 (reply : Reply) (w : World) : World :=
  match result reply with
  | Some res =>
      if (status res =? 401)%Z
      then {| window := expired <$> window w; sent := sent w |}
      else w
  | None => w
  end.

(** The five requests of [loadData]. *)
Definition load_requests (w : World) : list Request :=
  [latest_request w; stats_request w; ollama_request w;
   history_request w (Some 10%Z); request_of w GetDiscordSettings].

Definition empty_panels : Panels :=
  {| ollamaStatus := VNull; aiSummary := VNull; aiAnalysis := VNull; analyzing := false;
     showSettings := false; showHistory := false; discordWebhook := "";
     discordConfigured := VBool false |}.

(** The page as [useState] initializes it, in the given world. *)
Definition fresh_browser (w : World) : Browser :=
  {| app := {| ui := {| scanResults := VNull; stats := VNull; scanHistory := VArr [];
                        loading := true; scanning := false; error := None |};
               world := w;
               timers := {| interval := None; timeout := None |} |};
     panels := empty_panels;
     alerted := [] |}.

(** A sample network that answers by URL, and fails for any other. *)
Definition routed (routes : list (string * jsval)) : Network :=
  fun req =>
    {| latency := 40;
       result := json_response <$> Js.assoc (url req) routes |}.

(** * Properties *)

(** ** Risk styling *)

Lemma eqb_of_neq (a b : string) : a <> b -> String.eqb a b = false.
Proof. intros H. now apply String.eqb_neq. Qed.

(** C10: [getRiskColor] and [getRiskBgColor] return the green default for
    every level other than HIGH, MEDIUM and LOW, so such a level is styled
    as MINIMAL is, in both functions and in every class of the device card. *)
Theorem risk_styling_defaults_to_green (level : string) :
  level <> "HIGH" -> level <> "MEDIUM" -> level <> "LOW" ->
  getRiskColor level = "text-cyber-green"
  /\ getRiskBgColor level = "bg-cyber-green/20 border-cyber-green"
  /\ getRiskColor level = getRiskColor "MINIMAL"
  /\ getRiskBgColor level = getRiskBgColor "MINIMAL"
  /\ DeviceCard_classes level = DeviceCard_classes "MINIMAL".
Proof.
  intros Hh Hm Hl.
  unfold DeviceCard_classes, getRiskColor, getRiskBgColor.
  rewrite !(eqb_of_neq level "HIGH" Hh), !(eqb_of_neq level "MEDIUM" Hm),
    !(eqb_of_neq level "LOW" Hl).
  repeat split; reflexivity.
Qed.

Lemma risk_styling_unknown_level :
  getRiskColor "CRITICAL" = "text-cyber-green"
  /\ getRiskBgColor "CRITICAL" = "bg-cyber-green/20 border-cyber-green"
  /\ getRiskColor "CRITICAL" = getRiskColor "MINIMAL"
  /\ getRiskBgColor "CRITICAL" = getRiskBgColor "MINIMAL"
  /\ DeviceCard_classes "CRITICAL" = DeviceCard_classes "MINIMAL".
Proof.
  apply (risk_styling_defaults_to_green "CRITICAL"); discriminate.
Defined.

(** ** Risk scoring *)

Module RiskScorerFacts.
Import RiskScorer.

Lemma clamp_bounds (lo hi x : Z) : (lo <= hi)%Z -> (lo <= clamp lo hi x <= hi)%Z.
Proof. unfold clamp. lia. Qed.

Lemma level_of_cases (s : Z) :
  (level_of s = HIGH <-> 70 <= s)%Z
  /\ (level_of s = MEDIUM <-> 40 <= s < 70)%Z
  /\ (level_of s = LOW <-> 15 <= s < 40)%Z
  /\ (level_of s = MINIMAL <-> s < 15)%Z.
Proof.
  unfold level_of, HIGH_THRESHOLD, MEDIUM_THRESHOLD, LOW_THRESHOLD.
  destruct (Z.leb_spec 70 s); [| destruct (Z.leb_spec 40 s);
    [| destruct (Z.leb_spec 15 s)]];
    repeat split; intros; try discriminate; try lia; reflexivity.
Qed.

End RiskScorerFacts.

(** C7: the risk score is the sum of the weights of the fired rules clamped
    to [0, 100], and the level follows from the clamped score: at least 70
    HIGH, else at least 40 MEDIUM, else at least 15 LOW, else MINIMAL. *)
Theorem risk_score_clamped_then_levelled (table : list RiskScorer.rule) (f : RiskScorer.facts) :
  let a := RiskScorer.assess table f in
  Device.score a
    = RiskScorer.clamp 0 100 (RiskScorer.sum_weights (RiskScorer.fired table f))
  /\ (0 <= Device.score a <= 100)%Z
  /\ (Device.level a = HIGH <-> 70 <= Device.score a)%Z
  /\ (Device.level a = MEDIUM <-> 40 <= Device.score a < 70)%Z
  /\ (Device.level a = LOW <-> 15 <= Device.score a < 40)%Z
  /\ (Device.level a = MINIMAL <-> Device.score a < 15)%Z.
Proof.
  cbn [RiskScorer.assess Device.score Device.level].
  split; [reflexivity |].
  split; [apply RiskScorerFacts.clamp_bounds; unfold RiskScorer.SCORE_MIN, RiskScorer.SCORE_MAX; lia |].
  apply RiskScorerFacts.level_of_cases.
Qed.

(** ** The device interface *)

Lemma forallb_map_true {A B : Type} (p : B -> bool) (g : A -> B) (l : list A) :
  (forall x, p (g x) = true) -> forallb p (map g l) = true.
Proof.
  intros H. induction l as [| x l IH]; [reflexivity |].
  cbn. now rewrite H, IH.
Qed.

Lemma string_in_forallb (s : string) (xs ys : list string) :
  forallb (fun x => string_in x ys) xs = true ->
  string_in s xs = true -> string_in s ys = true.
Proof.
  intros Hall Hin. unfold string_in in Hin.
  apply existsb_exists in Hin as [x [Hx Heq]].
  apply String.eqb_eq in Heq. subst x.
  rewrite forallb_forall in Hall. now apply Hall.
Qed.

(** A value of a shape has every shape that shape refines. *)
Lemma refines_sound : forall a b v,
  refines a b = true -> conforms a v = true -> conforms b v = true.
Proof.
  fix IH 1. intros a b v Hr Hc.
  destruct b as [| | | | ys | b1 b2 | eb | fb]; [reflexivity | ..];
    destruct a as [| | | | xs | a1 a2 | ea | fa]; cbn in Hr; try discriminate.
  - exact Hc.
  - exact Hc.
  - exact Hc.
  - destruct v; try discriminate. cbn in *.
    apply andb_prop in Hr as [Hr _]. eapply string_in_forallb; eauto.
  - apply andb_prop in Hr as [H1 H2]. cbn in *.
    apply orb_prop in Hc as [Hc | Hc].
    + rewrite (IH a1 b1 v H1 Hc). reflexivity.
    + rewrite (IH a2 b2 v H2 Hc). apply orb_true_r.
  - destruct v; try discriminate. cbn in *.
    induction xs as [| x xs IHxs]; [reflexivity |].
    cbn in *. apply andb_prop in Hc as [Hx Hxs].
    rewrite (IH ea eb x Hr Hx). cbn. auto.
  - destruct v as [| | | | | | ps]; try discriminate. cbn in *.
    revert fb ps Hr Hc.
    induction fa as [| [k x] fa IHfa]; intros [| [k' y] fb] ps Hr Hc; try discriminate.
    + exact Hc.
    + destruct ps as [| [k'' v'] ps]; try discriminate.
      apply andb_prop in Hr as [Hr Hgo]. apply andb_prop in Hr as [Hk Hxy].
      apply andb_prop in Hc as [Hc Hgo']. apply andb_prop in Hc as [Hk' Hxv].
      apply String.eqb_eq in Hk. subst k'.
      rewrite Hk', (IH x y v' Hxy Hxv). cbn.
      apply IHfa; assumption.
Qed.

Lemma RiskLevel_name_listed (l : RiskLevel) :
  string_in (RiskLevel_name l) ["HIGH"; "MEDIUM"; "LOW"; "MINIMAL"] = true.
Proof. destruct l; reflexivity. Qed.

Lemma Device_value_conforms_interface (d : Device.t) :
  conforms Device_interface (Device.value d) = true.
Proof.
  destruct d as [ip mac hostname vendor ports [score level reasons]].
  cbn -[string_in].
  rewrite RiskLevel_name_listed.
  rewrite (forallb_map_true _ Device.port_entry_value) by (intros []; reflexivity).
  rewrite (forallb_map_true _ VStr) by reflexivity.
  destruct hostname; reflexivity.
Qed.

Lemma Device_value_conforms_contract (d : Device.t) :
  conforms Device_wire_contract (Device.value d) = true.
Proof.
  apply (refines_sound Device_interface); [reflexivity |].
  apply Device_value_conforms_interface.
Qed.

(** C3: the client's [Device] type reproduces the wire contract: every
    [Device] value is an object with exactly the fields ip, mac, hostname
    (a string or null), vendor, ports (a list of {port, service}) and risk
    ({score, level, reasons} with reasons a list of strings), and its level
    is one of exactly the four names HIGH, MEDIUM, LOW, MINIMAL. *)
Theorem Device_reproduces_wire_contract :
  refines Device_interface Device_wire_contract = true
  /\ (forall d : Device.t,
        conforms Device_interface (Device.value d) = true
        /\ conforms Device_wire_contract (Device.value d) = true
        /\ (exists h, Js.get (Device.value d) "hostname" = Return h
                      /\ (h = VNull \/ exists s, h = VStr s)))
  /\ (forall s : string,
        In s ["HIGH"; "MEDIUM"; "LOW"; "MINIMAL"] <-> exists l, RiskLevel_name l = s).
Proof.
  split; [reflexivity |]. split.
  - intros d. split; [apply Device_value_conforms_interface |].
    split; [apply Device_value_conforms_contract |].
    destruct d as [ip mac [h |] vendor ports r]; cbn; eauto.
  - intros s. split.
    + cbn. intros [<- | [<- | [<- | [<- | []]]]];
        [exists HIGH | exists MEDIUM | exists LOW | exists MINIMAL]; reflexivity.
    + intros [[] <-]; cbn; tauto.
Qed.

(** ** Requests and the Authorization header *)

Lemma authHeaders_Authorization (w : World) :
  authHeaders w !! "Authorization"
  = if isAuthenticated w then (fun t => "Bearer " ++ t) <$> getToken w else None.
Proof.
  unfold authHeaders, isAuthenticated.
  destruct (getToken w) as [t |]; [| reflexivity].
  destruct (truthy_token (Some t)); [| reflexivity].
  cbn. apply lookup_singleton_eq.
Qed.

Lemma spread_json_Authorization (hs : gmap string string) :
  spread json_headers hs !! "Authorization" = hs !! "Authorization".
Proof.
  unfold spread, json_headers. rewrite lookup_union.
  rewrite lookup_singleton_ne by discriminate.
  destruct (hs !! "Authorization"); reflexivity.
Qed.

Lemma handleResponse_sent (res : Response) (w : World) :
  sent (snd (handleResponse res w)) = sent w.
Proof.
  unfold handleResponse, throw_detail, Response_json, removeToken, reload_if_window,
    bind, try_catch, throw, ret, lift, with_window.
  destruct (status res =? 401)%Z.
  - destruct (window w); reflexivity.
  - destruct (negb (ok res)); destruct (json_body res) as [v |]; cbn; try reflexivity.
    destruct (Js.get v "detail"); reflexivity.
Qed.

Lemma fetch_logged (net : Network) (u : string) (i : RequestInit) (w : World) :
  snd (fetch net u i w) = logged w {| url := u; init := i |}.
Proof.
  unfold fetch, logged.
  destruct (signal i) as [d |]; [destruct (d <=? latency _)%Z |];
    try destruct (result _); reflexivity.
Qed.

(** A call that fetches once and hands the response to [handleResponse]
    sends exactly that one request. *)
Lemma fetch_then_handle_sent (net : Network) (u : World -> string)
    (i : World -> RequestInit) (w : World) :
  sent (snd ((let* res := (fun w => fetch net (u w) (i w) w) in handleResponse res) w))
  = (sent w ++ [{| url := u w; init := i w |}])%list.
Proof.
  unfold bind.
  pose proof (fetch_logged net (u w) (i w) w) as Hl.
  destruct (fetch net (u w) (i w) w) as [[res | e] w']; cbn in Hl; subst w'.
  - rewrite handleResponse_sent. reflexivity.
  - reflexivity.
Qed.

Lemma guarded_fetch_then_handle_sent (net : Network) (u : World -> string)
    (i : World -> RequestInit) (w : World) :
  sent (snd ((let* res := try_catch (fun w => fetch net (u w) (i w) w) timed_out in
              handleResponse res) w))
  = (sent w ++ [{| url := u w; init := i w |}])%list.
Proof.
  unfold bind, try_catch.
  pose proof (fetch_logged net (u w) (i w) w) as Hl.
  destruct (fetch net (u w) (i w) w) as [[res | e] w']; cbn in Hl; subst w'.
  - rewrite handleResponse_sent. reflexivity.
  - unfold timed_out, throw. destruct (String.eqb _ _); reflexivity.
Qed.

(** The one request a call to a protected endpoint sends. *)
Lemma perform_sends_one (net : Network) (c : protected_call) (w : World) :
  exists req,
    sent (snd (perform net c w)) = (sent w ++ [req])%list
    /\ headers (init req) !! "Authorization" = authHeaders w !! "Authorization".
Proof.
  destruct c; cbn [perform];
    unfold fetchLatestScan, startScan, fetchAISummary, fetchAIAnalysis,
      fetchScanHistory, fetchHistoricalScan, fetchAlerts,
      configureDiscordWebhook, testDiscordWebhook, getDiscordSettings;
    eexists;
    (split; [ first [ apply fetch_then_handle_sent
                    | apply guarded_fetch_then_handle_sent ] | ]);
    cbn [init headers get_init];
    rewrite ?spread_json_Authorization; reflexivity.
Qed.


Example startScan_signed_in_sends_bearer :
  map (fun r => headers (init r) !! "Authorization")
      (sent (snd (startScan (replies 40 200 VNull) None signed_in)))
  = [Some "Bearer eyJhbGciOi"].
Proof. vm_compute. reflexivity. Qed.

Example fetchAlerts_signed_out_sends_no_header :
  map (fun r => headers (init r) !! "Authorization")
      (sent (snd (fetchAlerts (replies 40 200 VNull) None signed_out)))
  = [None].
Proof. vm_compute. reflexivity. Qed.

(** ** [handleResponse] *)

Lemma ok_not_401 (res : Response) : ok res = true -> (status res =? 401)%Z = false.
Proof. unfold ok. lia. Qed.

Lemma handleResponse_ok (res : Response) (w : World) :
  ok res = true -> handleResponse res w = Response_json res w.
Proof.
  intros Hok. unfold handleResponse.
  rewrite (ok_not_401 res Hok), Hok. reflexivity.
Qed.

Lemma throw_detail_throws {S A : Type} (res : Response) (fallback : string) (s : S) :
  exists e, @throw_detail S A res fallback s = (Throw e, s).
Proof.
  unfold throw_detail, Response_json, bind, try_catch, throw, ret, lift.
  destruct (json_body res) as [v |]; cbn.
  - destruct (Js.get v "detail"); eauto.
  - eauto.
Qed.



(** ** Login *)

Lemma login_cases (net : Network) (username password : string) (w : World) :
  let req := login_request w username password in
  match result (net req) with
  | None => login net username password w = (Throw (TypeError "Failed to fetch"), logged w req)
  | Some res =>
      if ok res then
        match json_body res with
        | None => login net username password w
                  = (Throw (SyntaxError "Unexpected token in JSON"), logged w req)
        | Some data =>
            match Js.get data "access_token" with
            | Throw e => login net username password w = (Throw e, logged w req)
            | Return tok =>
                login net username password w
                = match setToken (Js.to_string tok) (logged w req) with
                  | (Return _, w') => (Return data, w')
                  | (Throw e, w') => (Throw e, w')
                  end
            end
        end
      else exists e, login net username password w = (Throw e, logged w req)
  end.
Proof.
  intros req. unfold login, bind, fetch. cbn [signal].
  fold (login_request w username password). fold req. fold (logged w req).
  destruct (result (net req)) as [res |]; [| reflexivity].
  destruct (ok res); cbn [negb].
  - unfold Response_json, lift, ret, throw.
    destruct (json_body res) as [data |]; [| reflexivity].
    destruct (Js.get data "access_token"); reflexivity.
  - apply throw_detail_throws.
Qed.

Lemma setToken_window (token : string) (w : World) :
  match setToken token w with
  | (Return _, w') => getToken w' = Some token /\ sent w' = sent w
  | (Throw _, w') => w' = w
  end.
Proof.
  unfold setToken, getToken, with_window.
  destruct (window w); cbn; [| reflexivity].
  split; [apply lookup_insert_eq | reflexivity].
Qed.

(** C9: [login] writes the token only after an ok response: every failed
    attempt (a response that is not ok, a network error, a body that cannot
    be read) leaves the stored token, and so [isAuthenticated()], as it
    was. *)
Theorem login_stores_token_only_after_ok
    (net : Network) (username password : string) (w : World) :
  let req := login_request w username password in
  let after := snd (login net username password w) in
  (forall e, fst (login net username password w) = Throw e ->
     window after = window w
     /\ getToken after = getToken w
     /\ isAuthenticated after = isAuthenticated w)
  /\ (window after <> window w ->
        exists res, result (net req) = Some res /\ ok res = true)
  /\ (forall data, fst (login net username password w) = Return data ->
        exists res tok,
          result (net req) = Some res /\ ok res = true
          /\ json_body res = Some data
          /\ Js.get data "access_token" = Return tok
          /\ getToken after = Some (Js.to_string tok)).
Proof.
  intros req after. subst after.
  pose proof (login_cases net username password w) as Hc. cbv zeta in Hc. fold req in Hc.
  destruct (result (net req)) as [res |] eqn:Hres.
  2:{ rewrite Hc. cbn. repeat split; try discriminate. intros H; now destruct H. }
  destruct (ok res) eqn:Hok.
  2:{ destruct Hc as [e He]. rewrite He. cbn. repeat split; try discriminate.
      intros H; now destruct H. }
  destruct (json_body res) as [data |] eqn:Hbody.
  2:{ rewrite Hc. cbn. repeat split; try discriminate. intros H; now destruct H. }
  destruct (Js.get data "access_token") as [tok | e] eqn:Htok.
  2:{ rewrite Hc. cbn. repeat split; try discriminate. intros H; now destruct H. }
  rewrite Hc.
  pose proof (setToken_window (Js.to_string tok) (logged w req)) as Hs.
  destruct (setToken (Js.to_string tok) (logged w req)) as [[[] | e] w'].
  - destruct Hs as [Hget Hsent]. cbn. split; [discriminate |].
    split; [eauto |].
    intros d [= <-]. exists res, tok. repeat split; congruence.
  - subst w'. cbn. repeat split; try discriminate. intros H; now destruct H.
Qed.

(** ** AI time-outs *)

Lemma fetchAISummary_cases (net : Network) (w : World) :
  let req := summary_request w in
  fetchAISummary net w
  = if (120000 <=? latency (net req))%Z
    then (Throw (Error "AI request timed out"), logged w req)
    else settled (net req) (logged w req).
Proof.
  intros req. unfold fetchAISummary, bind, try_catch, fetch, settled. cbn [signal].
  fold (summary_request w). fold req. fold (logged w req).
  destruct (120000 <=? latency (net req))%Z; [reflexivity |].
  destruct (result (net req)); reflexivity.
Qed.

Lemma fetchAIAnalysis_cases (net : Network) (deviceIp : option string) (w : World) :
  let req := analysis_request w deviceIp in
  fetchAIAnalysis net deviceIp w
  = if (180000 <=? latency (net req))%Z
    then (Throw (Error "AI request timed out"), logged w req)
    else settled (net req) (logged w req).
Proof.
  intros req. unfold fetchAIAnalysis, bind, try_catch, fetch, settled. cbn [signal].
  fold (analysis_request w deviceIp). fold req. fold (logged w req).
  destruct (180000 <=? latency (net req))%Z; [reflexivity |].
  destruct (result (net req)); reflexivity.
Qed.

Lemma handleResponse_fst_window (res : Response) (w1 w2 : World) :
  window w1 = window w2 -> fst (handleResponse res w1) = fst (handleResponse res w2).
Proof.
  destruct w1 as [win log1], w2 as [win2 log2]. cbn. intros <-.
  unfold handleResponse, throw_detail, Response_json, removeToken, reload_if_window,
    bind, try_catch, throw, ret, lift, with_window.
  destruct (status res =? 401)%Z.
  - destruct win; reflexivity.
  - destruct (negb (ok res)); destruct (json_body res) as [v |]; cbn; try reflexivity.
    destruct (Js.get v "detail"); reflexivity.
Qed.

Lemma summary_request_window (w1 w2 : World) :
  window w1 = window w2 -> summary_request w1 = summary_request w2.
Proof.
  intros Hw. unfold summary_request, API_BASE, authHeaders, getToken. now rewrite Hw.
Qed.

Lemma analysis_request_window (w1 w2 : World) (deviceIp : option string) :
  window w1 = window w2 -> analysis_request w1 deviceIp = analysis_request w2 deviceIp.
Proof.
  intros Hw. unfold analysis_request, API_BASE, authHeaders, getToken. now rewrite Hw.
Qed.

Lemma fetchAISummary_fst_window (net : Network) (w1 w2 : World) :
  window w1 = window w2 -> fst (fetchAISummary net w1) = fst (fetchAISummary net w2).
Proof.
  intros Hw. pose proof (fetchAISummary_cases net w1) as H1.
  pose proof (fetchAISummary_cases net w2) as H2. cbv zeta in H1, H2.
  rewrite H1, H2, (summary_request_window w1 w2 Hw). clear H1 H2.
  destruct (120000 <=? latency (net (summary_request w2)))%Z; [reflexivity |].
  unfold settled. destruct (result _); [| reflexivity].
  apply handleResponse_fst_window. exact Hw.
Qed.

Lemma fetchAIAnalysis_fst_window (net : Network) (ip : option string) (w1 w2 : World) :
  window w1 = window w2 -> fst (fetchAIAnalysis net ip w1) = fst (fetchAIAnalysis net ip w2).
Proof.
  intros Hw. pose proof (fetchAIAnalysis_cases net ip w1) as H1.
  pose proof (fetchAIAnalysis_cases net ip w2) as H2. cbv zeta in H1, H2.
  rewrite H1, H2, (analysis_request_window w1 w2 ip Hw). clear H1 H2.
  destruct (180000 <=? latency (net (analysis_request w2 ip)))%Z; [reflexivity |].
  unfold settled. destruct (result _); [| reflexivity].
  apply handleResponse_fst_window. exact Hw.
Qed.

(** C2: [fetchAISummary] is aborted 120000 ms after it starts and
    [fetchAIAnalysis] 180000 ms after; an aborted request throws the Error
    'AI request timed out', for that request only, and the time-out path
    changes neither the stored token nor anything else the client keeps. *)
Theorem AI_requests_time_out (net : Network) (deviceIp : option string) (w : World) :
  let summary := summary_request w in
  let analysis := analysis_request w deviceIp in
  (fetchAISummary net w
   = if (120000 <=? latency (net summary))%Z
     then (Throw (Error "AI request timed out"), logged w summary)
     else settled (net summary) (logged w summary))
  /\ (fetchAIAnalysis net deviceIp w
      = if (180000 <=? latency (net analysis))%Z
        then (Throw (Error "AI request timed out"), logged w analysis)
        else settled (net analysis) (logged w analysis))
  /\ ((120000 <= latency (net summary))%Z ->
        fst (fetchAISummary net w) = Throw (Error "AI request timed out")
        /\ window (snd (fetchAISummary net w)) = window w
        /\ getToken (snd (fetchAISummary net w)) = getToken w
        /\ forall (net' : Network) (ip : option string),
             fst (fetchAISummary net' (snd (fetchAISummary net w)))
             = fst (fetchAISummary net' w)
             /\ fst (fetchAIAnalysis net' ip (snd (fetchAISummary net w)))
                = fst (fetchAIAnalysis net' ip w))
  /\ ((180000 <= latency (net analysis))%Z ->
        fst (fetchAIAnalysis net deviceIp w) = Throw (Error "AI request timed out")
        /\ window (snd (fetchAIAnalysis net deviceIp w)) = window w
        /\ getToken (snd (fetchAIAnalysis net deviceIp w)) = getToken w
        /\ forall (net' : Network) (ip : option string),
             fst (fetchAISummary net' (snd (fetchAIAnalysis net deviceIp w)))
             = fst (fetchAISummary net' w)
             /\ fst (fetchAIAnalysis net' ip (snd (fetchAIAnalysis net deviceIp w)))
                = fst (fetchAIAnalysis net' ip w)).
Proof.
  intros summary analysis.
  pose proof (fetchAISummary_cases net w) as Hs.
  pose proof (fetchAIAnalysis_cases net deviceIp w) as Ha.
  cbv zeta in Hs, Ha. fold summary in Hs. fold analysis in Ha.
  split; [exact Hs |]. split; [exact Ha |]. split.
  - intros Hlate. rewrite Hs.
    replace (120000 <=? latency (net summary))%Z with true by lia.
    cbn. repeat split.
    + now apply fetchAISummary_fst_window.
    + now apply fetchAIAnalysis_fst_window.
  - intros Hlate. rewrite Ha.
    replace (180000 <=? latency (net analysis))%Z with true by lia.
    cbn. repeat split.
    + now apply fetchAISummary_fst_window.
    + now apply fetchAIAnalysis_fst_window.
Qed.

(** ** Starting a scan and reading the history *)

Lemma startScan_cases (net : Network) (network : option string) (w : World) :
  startScan net network w
  = settled (net (startScan_request w network)) (logged w (startScan_request w network)).
Proof.
  unfold startScan, settled, startScan_request, bind, fetch. cbn [signal].
  destruct network; cbn [optional_string scan_request_props];
    destruct (result _); reflexivity.
Qed.

Lemma fetchScanHistory_cases (net : Network) (limit : option Z) (w : World) :
  fetchScanHistory net limit w
  = settled (net (history_request w limit)) (logged w (history_request w limit)).
Proof.
  unfold fetchScanHistory, settled, history_request, bind, fetch. cbn [signal get_init].
  destruct (result _); reflexivity.
Qed.

Lemma settled_ok (reply : Reply) (w : World) (res : Response) (v : jsval) :
  result reply = Some res -> ok res = true -> json_body res = Some v ->
  settled reply w = (Return v, w).
Proof.
  intros Hr Hok Hb. unfold settled. rewrite Hr, (handleResponse_ok res w Hok).
  unfold Response_json. now rewrite Hb.
Qed.

(** C5: [startScan] POSTs to /api/scan/start a JSON body in which
    scan_ports is always true and which has a network field exactly when the
    network argument is given (an undefined network is left out of the
    serialized body), and on success it returns the parsed response. *)
Theorem startScan_posts_scan_request (net : Network) (network : option string) (w : World) :
  let req := startScan_request w network in
  startScan net network w = settled (net req) (logged w req)
  /\ url req = API_BASE w ++ "/api/scan/start"
  /\ method (init req) = "POST"
  /\ body (init req)
     = Some ("{" ++ Js.join ","
                     (match network with
                      | Some n => [Js.quote "network" ++ ":" ++ Js.quote n]
                      | None => []
                      end ++ [Js.quote "scan_ports" ++ ":true"]) ++ "}")
  /\ Js.assoc "scan_ports" (scan_request_props network) = Some (VBool true)
  /\ Js.assoc "network" (scan_request_props network) = VStr <$> network
  /\ (forall res v,
        result (net req) = Some res -> ok res = true -> json_body res = Some v ->
        startScan net network w = (Return v, logged w req)).
Proof.
  intros req. split; [apply startScan_cases |].
  split; [reflexivity |]. split; [reflexivity |].
  split; [destruct network; reflexivity |].
  split; [destruct network; reflexivity |].
  split; [destruct network; reflexivity |].
  intros res v Hr Hok Hb. rewrite startScan_cases. fold req.
  now apply (settled_ok _ _ res).
Qed.

Example startScan_body_without_network :
  map (fun r => body (init r)) (sent (snd (startScan unreachable None signed_out)))
  = [Some ("{" ++ Js.dquote ++ "scan_ports" ++ Js.dquote ++ ":true}")].
Proof. vm_compute. reflexivity. Qed.

Example startScan_body_with_network :
  map (fun r => body (init r))
      (sent (snd (startScan unreachable (Some "10.0.0.0/24") signed_out)))
  = [Some ("{" ++ Js.dquote ++ "network" ++ Js.dquote ++ ":"
               ++ Js.dquote ++ "10.0.0.0/24" ++ Js.dquote ++ ","
               ++ Js.dquote ++ "scan_ports" ++ Js.dquote ++ ":true}")].
Proof. vm_compute. reflexivity. Qed.

(** C6: a scan-history entry carries id, scan_time, network, device_count,
    one count per risk level and total_open_ports; [fetchScanHistory]
    requests /api/scan/history with a limit query parameter, 50 when none is
    given, and returns the parsed [{scans, count}]. *)
Theorem fetchScanHistory_requests_summaries (net : Network) (limit : option Z) (w : World) :
  let req := history_request w limit in
  fetchScanHistory net limit w = settled (net req) (logged w req)
  /\ url req = API_BASE w ++ "/api/scan/history?limit=" ++ Number_toString (default 50%Z limit)
  /\ url (history_request w None) = API_BASE w ++ "/api/scan/history?limit=50"
  /\ method (init req) = "GET"
  /\ (forall res scans count,
        result (net req) = Some res -> ok res = true ->
        json_body res = Some (ScanHistoryItem.page_value scans count) ->
        fst (fetchScanHistory net limit w) = Return (ScanHistoryItem.page_value scans count)
        /\ Js.get (ScanHistoryItem.page_value scans count) "scans"
           = Return (VArr (map ScanHistoryItem.value scans))
        /\ Js.get (ScanHistoryItem.page_value scans count) "count" = Return (VNum count))
  /\ (forall h : ScanHistoryItem.t,
        let v := ScanHistoryItem.value h in
        Js.get v "id" = Return (VNum (ScanHistoryItem.id h))
        /\ Js.get v "scan_time" = Return (VStr (ScanHistoryItem.scan_time h))
        /\ Js.get v "network" = Return (VStr (ScanHistoryItem.network h))
        /\ Js.get v "device_count" = Return (VNum (ScanHistoryItem.device_count h))
        /\ Js.get v "high_risk_count" = Return (VNum (ScanHistoryItem.high_risk_count h))
        /\ Js.get v "medium_risk_count" = Return (VNum (ScanHistoryItem.medium_risk_count h))
        /\ Js.get v "low_risk_count" = Return (VNum (ScanHistoryItem.low_risk_count h))
        /\ Js.get v "minimal_risk_count" = Return (VNum (ScanHistoryItem.minimal_risk_count h))
        /\ Js.get v "total_open_ports" = Return (VNum (ScanHistoryItem.total_open_ports h))).
Proof.
  intros req. split; [apply fetchScanHistory_cases |].
  split; [reflexivity |]. split; [reflexivity |]. split; [reflexivity |]. split.
  - intros res scans count Hr Hok Hb. rewrite fetchScanHistory_cases. fold req.
    rewrite (settled_ok _ _ res _ Hr Hok Hb). repeat split.
  - intros h v. subst v. repeat split.
Qed.

(** ** Polling for the end of a scan *)

Lemma fetchLatestScan_cases (net : Network) (w : World) :
  fetchLatestScan net w
  = settled (net (latest_request w)) (logged w (latest_request w)).
Proof.
  unfold fetchLatestScan, settled, latest_request, bind, fetch. cbn [signal get_init].
  destruct (result _); reflexivity.
Qed.

Lemma fetchStats_cases (net : Network) (w : World) :
  fetchStats net w
  = settled (net (stats_request w)) (logged w (stats_request w)).
Proof.
  unfold fetchStats, settled, stats_request, bind, fetch. cbn [signal get_init].
  destruct (result _); reflexivity.
Qed.





Lemma handleScan_cases (net : Network) (a : App) :
  let a' := snd (handleScan net a) in
  world a' = snd (startScan net None (world a))
  /\ scanResults (ui a') = scanResults (ui a)
  /\ stats (ui a') = stats (ui a)
  /\ scanHistory (ui a') = scanHistory (ui a)
  /\ match fst (startScan net None (world a)) with
     | Return _ =>
         timers a' = armed /\ scanning (ui a') = true /\ error (ui a') = None
     | Throw _ =>
         timers a' = timers a /\ scanning (ui a') = false
         /\ error (ui a') = Some "Failed to start scan. Make sure the backend has sudo access."
     end.
Proof.
  intros a'. subst a'.
  unfold handleScan, try_catch, bind, api, setScanning, setError, setInterval, setTimeout,
    update_ui.
  cbn [world ui timers].
  destruct (startScan net None (world a)) as [[v | e] w1]; cbn; repeat split.
Qed.


Lemma requests_window (w1 w2 : World) :
  window w1 = window w2 ->
  latest_request w1 = latest_request w2
  /\ stats_request w1 = stats_request w2
  /\ forall limit, history_request w1 limit = history_request w2 limit.
Proof.
  intros Hw.
  unfold latest_request, stats_request, history_request, API_BASE, authHeaders, getToken.
  rewrite Hw. repeat split.
Qed.

Lemma serves_window (net : Network) (w1 w2 : World) (t : string)
    (latest newStats history scans : jsval) :
  window w1 = window w2 ->
  serves net w1 t latest newStats history scans ->
  serves net w2 t latest newStats history scans.
Proof.
  intros Hw. unfold serves.
  destruct (requests_window w1 w2 Hw) as [-> [-> Hh]]. rewrite Hh. tauto.
Qed.

Lemma settled_json (net : Network) (req : Request) (w : World) (v : jsval) :
  result (net req) = Some (json_response v) -> settled (net req) w = (Return v, w).
Proof. intros H. now apply (settled_ok _ _ (json_response v)). Qed.

(** A poll of a healthy backend. *)
Lemma checkScan_healthy (shown : jsval) (net : Network) (b : App) (t : string)
    (latest newStats history scans : jsval) :
  serves net (world b) t latest newStats history scans ->
  snd (checkScan shown net b)
  = if Js.strict_eq (VStr t) (Js.get_opt shown "scan_time")
    then {| ui := ui b;
            world := logged (world b) (latest_request (world b));
            timers := timers b |}
    else {| ui := completed (ui b) latest newStats scans;
            world := logged (logged (logged (world b) (latest_request (world b)))
                               (stats_request (world b)))
                       (history_request (world b) (Some 10%Z));
            timers := {| interval := None; timeout := timeout (timers b) |} |}.
Proof.
  intros (Hl & Hs & Hh & Ht & Hscans).
  unfold checkScan, try_catch, bind, api, lift, ret.
  rewrite fetchLatestScan_cases, (settled_json _ _ _ _ Hl).
  unfold scan_time_differs. rewrite Ht.
  destruct (Js.strict_eq (VStr t) (Js.get_opt shown "scan_time")); cbn; [reflexivity |].
  rewrite fetchStats_cases.
  change (stats_request (logged (world b) (latest_request (world b))))
    with (stats_request (world b)).
  rewrite (settled_json _ _ _ _ Hs). cbn.
  rewrite fetchScanHistory_cases.
  change (history_request (logged (logged (world b) (latest_request (world b)))
                             (stats_request (world b))) (Some 10%Z))
    with (history_request (world b) (Some 10%Z)).
  rewrite (settled_json _ _ _ _ Hh). cbn. rewrite Hscans. reflexivity.
Qed.

(** *** Scan times *)

















(** ** Evaluations *)

Example fetchAISummary_aborted_at_120000 :
  fst (fetchAISummary (replies 120000 200 (VObj [("summary", VStr "ok")])) signed_in)
  = Throw (Error "AI request timed out").
Proof. vm_compute. reflexivity. Qed.

Example fetchAISummary_answered_before_120000 :
  fst (fetchAISummary (replies 119999 200 (VObj [("summary", VStr "ok")])) signed_in)
  = Return (VObj [("summary", VStr "ok")]).
Proof. vm_compute. reflexivity. Qed.

Example fetchAIAnalysis_answered_at_120000 :
  fst (fetchAIAnalysis (replies 120000 200 (VObj [("analysis", VStr "ok")])) None signed_in)
  = Return (VObj [("analysis", VStr "ok")]).
Proof. vm_compute. reflexivity. Qed.

Example fetchAIAnalysis_aborted_at_180000 :
  let r := fetchAIAnalysis (replies 180000 200 (VObj [("analysis", VStr "ok")]))
             (Some "10.0.0.2") signed_in in
  fst r = Throw (Error "AI request timed out")
  /\ getToken (snd r) = Some "eyJhbGciOi".
Proof. vm_compute. split; reflexivity. Qed.

Example handleResponse_401_signs_out :
  let r := handleResponse {| status := 401; json_body := None |} signed_in in
  fst r = Throw (Error "Session expired")
  /\ getToken (snd r) = None
  /\ (reloads <$> window (snd r)) = Some 1%nat.
Proof. vm_compute. repeat split; reflexivity. Qed.

Example handleResponse_reports_detail :
  fst (handleResponse {| status := 409;
                         json_body := Some (VObj [("detail", VStr "Scan already running")]) |}
         signed_in)
  = Throw (Error "Scan already running").
Proof. vm_compute. reflexivity. Qed.

Example login_rejected_keeps_token :
  let r := login (replies 30 401 (VObj [("detail", VStr "Incorrect username or password")]))
             "admin" "wrong" signed_in in
  fst r = Throw (Error "Incorrect username or password")
  /\ getToken (snd r) = Some "eyJhbGciOi".
Proof. vm_compute. split; reflexivity. Qed.

Example login_unreachable_keeps_token :
  let r := login unreachable "admin" "sentinel" signed_in in
  fst r = Throw (TypeError "Failed to fetch")
  /\ getToken (snd r) = Some "eyJhbGciOi".
Proof. vm_compute. split; reflexivity. Qed.

Example login_accepted_stores_token :
  let r := login (replies 30 200 (VObj [("access_token", VStr "fresh");
                                        ("token_type", VStr "bearer");
                                        ("expires_in", VNum 86400)]))
             "admin" "sentinel" signed_out in
  getToken (snd r) = Some "fresh" /\ isAuthenticated (snd r) = true.
Proof. vm_compute. split; reflexivity. Qed.

Example fetchScanHistory_default_limit :
  map url (sent (snd (fetchScanHistory unreachable None signed_out)))
  = ["http://sentinel.local:8000/api/scan/history?limit=50"]
  /\ map url (sent (snd (fetchScanHistory unreachable (Some 10%Z) signed_out)))
     = ["http://sentinel.local:8000/api/scan/history?limit=10"].
Proof. vm_compute. split; reflexivity. Qed.

Example telnet_on_a_new_device_is_high :
  RiskScorer.assess RiskScorer.sample_table
    {| RiskScorer.open_ports := [(23%Z, "telnet"); (22%Z, "ssh")];
       RiskScorer.vendor := "Unknown";
       RiskScorer.hostname_resolved := false;
       RiskScorer.previously_seen := false |}
  = {| Device.score := 100; Device.level := HIGH;
       Device.reasons := ["high-risk service exposed"; "remote-management port exposed";
                          "new device on network"; "unknown vendor or unresolved hostname"] |}.
Proof. vm_compute. reflexivity. Qed.

Example quiet_known_device_is_minimal :
  RiskScorer.assess RiskScorer.sample_table
    {| RiskScorer.open_ports := [];
       RiskScorer.vendor := "Raspberry Pi Foundation";
       RiskScorer.hostname_resolved := true;
       RiskScorer.previously_seen := true |}
  = {| Device.score := 0; Device.level := MINIMAL; Device.reasons := [] |}.
Proof. vm_compute. reflexivity. Qed.

(** Without the strict increase the comparison misses a completed scan:
    a second scan stamped like the displayed one is never reported. *)
Example equal_scan_times_hide_a_completion :
  let shown := scan_taken_at "2026-01-03T18:18:54" in
  let started := snd (handleScan (replies 40 200 VNull) (idle_app shown)) in
  let final := run_events shown
                 [IntervalFires (replies 40 200 (scan_taken_at "2026-01-03T18:18:54"))]
                 started in
  strictly_increasing ["2026-01-03T18:18:54"; "2026-01-03T18:18:54"] = false
  /\ scanning (ui final) = true
  /\ interval (timers final) = Some 3000%Z.
Proof. vm_compute. repeat split; reflexivity. Qed.

Example cut_off_ends_polling :
  let shown := scan_taken_at "2026-01-03T18:18:54" in
  let started := snd (handleScan (replies 40 200 VNull) (idle_app shown)) in
  let final := run_events shown
                 [TimeoutFires;
                  IntervalFires (replies 40 200 (scan_taken_at "2026-01-03T18:25:10"))]
                 started in
  scanning (ui final) = false
  /\ scanResults (ui final) = shown
  /\ timers final = {| interval := None; timeout := None |}.
Proof. vm_compute. repeat split; reflexivity. Qed.

Example failed_start_arms_no_timer :
  let started := snd (handleScan unreachable (idle_app VNull)) in
  timers started = {| interval := None; timeout := None |}
  /\ scanning (ui started) = false
  /\ error (ui started)
     = Some "Failed to start scan. Make sure the backend has sudo access.".
Proof. vm_compute. repeat split; reflexivity. Qed.

(** * Further properties *)

(** ** Token storage *)

Lemma perform_cases (net : Network) (c : protected_call) (w : World) :
  perform net c w
  = if aborted (net (request_of w c)) (request_of w c)
    then (Throw (Error "AI request timed out"), logged w (request_of w c))
    else settled (net (request_of w c)) (logged w (request_of w c)).
Proof.
  destruct c; cbn [perform request_of].
  - apply fetchLatestScan_cases.
  - apply startScan_cases.
  - pose proof (fetchAISummary_cases net w) as H. cbv zeta in H. exact H.
  - pose proof (fetchAIAnalysis_cases net deviceIp w) as H. cbv zeta in H. exact H.
  - apply fetchScanHistory_cases.
  - unfold fetchHistoricalScan, settled, bind, fetch, aborted. cbn [signal get_init init].
    destruct (result _); reflexivity.
  - unfold fetchAlerts, settled, bind, fetch, aborted. cbn [signal get_init init].
    destruct (result _); reflexivity.
  - unfold configureDiscordWebhook, settled, bind, fetch, aborted. cbn [signal init].
    destruct (result _); reflexivity.
  - unfold testDiscordWebhook, settled, bind, fetch, aborted. cbn [signal init].
    destruct (result _); reflexivity.
  - unfold getDiscordSettings, settled, bind, fetch, aborted. cbn [signal get_init init].
    destruct (result _); reflexivity.
Qed.

(** What settling a reply does to the window: a 401 expires the session,
    anything else leaves the window as it was. *)
Lemma settled_window (reply : Reply) (w : World) :
  window (snd (settled reply w))
  = match result reply with
    | Some res => if (status res =? 401)%Z then expired <$> window w else window w
    | None => window w
    end.
Proof.
  unfold settled. destruct (result reply) as [res |]; [| reflexivity].
  destruct w as [win log].
  unfold handleResponse, throw_detail, Response_json, removeToken, reload_if_window,
    bind, try_catch, throw, ret, lift, with_window.
  destruct (status res =? 401)%Z.
  - destruct win; reflexivity.
  - destruct (negb (ok res)); destruct (json_body res) as [v |]; cbn; try reflexivity.
    destruct (Js.get v "detail"); reflexivity.
Qed.

Lemma settled_sent (reply : Reply) (w : World) :
  sent (snd (settled reply w)) = sent w.
Proof.
  unfold settled. destruct (result reply); [apply handleResponse_sent | reflexivity].
Qed.

(** X1: in the browser the token written by [setToken] is the one
    [getToken] reads, [removeToken] makes it null again, the last write
    wins, and neither touches another key of [localStorage] or sends
    anything. *)
Theorem token_storage_round_trip (win : Window) (log : list Request) (t1 t2 : string) :
  let w := {| window := Some win; sent := log |} in
  let w1 := snd (setToken t1 w) in
  let w2 := snd (removeToken w1) in
  getToken w1 = Some t1
  /\ isAuthenticated w1 = negb (String.eqb t1 "")
  /\ getToken w2 = None
  /\ isAuthenticated w2 = false
  /\ snd (setToken t2 w1) = snd (setToken t2 w)
  /\ snd (setToken t1 w2) = w1
  /\ snd (removeToken w2) = w2
  /\ (forall key, key <> TOKEN_KEY ->
        stored w1 key = stored w key /\ stored w2 key = stored w key)
  /\ sent w1 = log /\ sent w2 = log.
Proof.
  intros w w1 w2. subst w w1 w2.
  unfold setToken, removeToken, getToken, isAuthenticated, stored, with_window. cbn.
  split; [apply lookup_insert_eq |].
  split; [now rewrite lookup_insert_eq |].
  split; [apply lookup_delete_eq |].
  split; [now rewrite lookup_delete_eq |].
  split; [now rewrite insert_insert_eq |].
  split; [now rewrite insert_delete_eq, insert_insert_eq |].
  split; [now rewrite delete_delete_eq |].
  split; [| split; reflexivity].
  intros key Hkey.
  rewrite lookup_delete_ne by congruence.
  rewrite lookup_insert_ne by congruence. split; reflexivity.
Qed.

(** ** Signing in *)

(** X2: once [login] has succeeded, every protected call sends the token
    of that response, in the string form [localStorage] gave it, whatever
    token was stored before. *)
Theorem fresh_token_is_sent (net net' : Network) (username password : string)
    (w : World) (data : jsval) (c : protected_call) :
  fst (login net username password w) = Return data ->
  let w1 := snd (login net username password w) in
  exists tok req,
    Js.get data "access_token" = Return tok
    /\ getToken w1 = Some (Js.to_string tok)
    /\ sent (snd (perform net' c w1)) = (sent w1 ++ [req])%list
    /\ headers (init req) !! "Authorization"
       = if String.eqb (Js.to_string tok) "" then None
         else Some ("Bearer " ++ Js.to_string tok).
Proof.
  intros Hret w1. subst w1.
  pose proof (login_cases net username password w) as Hc. cbv zeta in Hc.
  set (req0 := login_request w username password) in *.
  destruct (result (net req0)) as [res |]; [| rewrite Hc in Hret; discriminate].
  destruct (ok res); [| destruct Hc as [e He]; rewrite He in Hret; discriminate].
  destruct (json_body res) as [body |]; [| rewrite Hc in Hret; discriminate].
  destruct (Js.get body "access_token") as [tok | e] eqn:Htok;
    [| rewrite Hc in Hret; discriminate].
  rewrite Hc in Hret |- *.
  pose proof (setToken_window (Js.to_string tok) (logged w req0)) as Hs.
  destruct (setToken (Js.to_string tok) (logged w req0)) as [[[] | e] w']; [| discriminate].
  destruct Hs as [Hget _]. cbn in Hret |- *. injection Hret as <-.
  destruct (perform_sends_one net' c w') as [req [Hsent Hauth]].
  exists tok, req. split; [exact Htok |]. split; [exact Hget |]. split; [exact Hsent |].
  rewrite Hauth, authHeaders_Authorization. unfold isAuthenticated. rewrite Hget. cbn.
  destruct (String.eqb (Js.to_string tok) ""); reflexivity.
Qed.

Lemma fresh_token_is_sent_sample :
  exists tok req,
    Js.get (VObj [("access_token", VStr "fresh")]) "access_token" = Return tok
    /\ getToken (snd (login (replies 30 200 (VObj [("access_token", VStr "fresh")]))
                        "admin" "sentinel" signed_in))
       = Some (Js.to_string tok)
    /\ sent (snd (perform unreachable FetchLatestScan
                    (snd (login (replies 30 200 (VObj [("access_token", VStr "fresh")]))
                            "admin" "sentinel" signed_in))))
       = (sent (snd (login (replies 30 200 (VObj [("access_token", VStr "fresh")]))
                       "admin" "sentinel" signed_in)) ++ [req])%list
    /\ headers (init req) !! "Authorization"
       = if String.eqb (Js.to_string tok) "" then None
         else Some ("Bearer " ++ Js.to_string tok).
Proof.
  exact (fresh_token_is_sent (replies 30 200 (VObj [("access_token", VStr "fresh")]))
           unreachable "admin" "sentinel" signed_in
           (VObj [("access_token", VStr "fresh")]) FetchLatestScan eq_refl).
Defined.

(** X3: an ok login response whose body is an object without
    access_token is accepted: the string 'undefined' is stored as the
    token and the client counts as signed in. *)
Theorem login_without_access_token_stores_undefined (net : Network)
    (username password : string) (win : Window) (log : list Request)
    (res : Response) (props : list (string * jsval)) :
  let w := {| window := Some win; sent := log |} in
  result (net (login_request w username password)) = Some res ->
  ok res = true ->
  json_body res = Some (VObj props) ->
  Js.assoc "access_token" props = None ->
  fst (login net username password w) = Return (VObj props)
  /\ getToken (snd (login net username password w)) = Some "undefined"
  /\ isAuthenticated (snd (login net username password w)) = true.
Proof.
  intros w Hres Hok Hbody Hmissing.
  pose proof (login_cases net username password w) as Hc. cbv zeta in Hc.
  rewrite Hres, Hok, Hbody in Hc. cbn in Hc. rewrite Hmissing in Hc. cbn in Hc.
  rewrite Hc. unfold isAuthenticated, getToken. cbn. rewrite lookup_insert_eq.
  repeat split.
Qed.

Lemma login_without_access_token_sample :
  fst (login (replies 30 200 (VObj [("token", VStr "misnamed")])) "admin" "sentinel" signed_out)
  = Return (VObj [("token", VStr "misnamed")])
  /\ getToken (snd (login (replies 30 200 (VObj [("token", VStr "misnamed")]))
                      "admin" "sentinel" signed_out))
     = Some "undefined"
  /\ isAuthenticated (snd (login (replies 30 200 (VObj [("token", VStr "misnamed")]))
                             "admin" "sentinel" signed_out))
     = true.
Proof.
  exact (login_without_access_token_stores_undefined
           (replies 30 200 (VObj [("token", VStr "misnamed")])) "admin" "sentinel"
           (sample_window ∅) [] _ [("token", VStr "misnamed")]
           eq_refl eq_refl eq_refl eq_refl).
Defined.

(** ** [checkAuth] *)

(** What [checkAuth] does, by whether a token is stored. *)
Lemma checkAuth_cases (net : Network) (w : World) :
  window (snd (checkAuth net w)) = window w
  /\ (isAuthenticated w = false -> checkAuth net w = (Return false, w))
  /\ (isAuthenticated w = true ->
        checkAuth net w
        = (Return match result (net (me_request w)) with
                  | Some res => ok res
                  | None => false
                  end,
           logged w (me_request w))
        /\ headers (init (me_request w)) !! "Authorization"
           = (fun t => "Bearer " ++ t) <$> getToken w).
Proof.
  unfold checkAuth, isAuthenticated.
  destruct (truthy_token (getToken w)) eqn:Htok; cbn [negb].
  - unfold try_catch, bind, fetch, ret. cbn [signal get_init].
    fold (me_request w). fold (logged w (me_request w)).
    split; [destruct (result (net (me_request w))); reflexivity |].
    split; [discriminate |]. intros _.
    split; [destruct (result (net (me_request w))); reflexivity |].
    cbn [me_request init get_init headers].
    rewrite authHeaders_Authorization. unfold isAuthenticated. now rewrite Htok.
  - split; [reflexivity |]. split; [reflexivity | discriminate].
Qed.

(** X4: [checkAuth] never throws and never changes the window: without a
    token it answers false and sends nothing; with one it sends a single
    GET /api/auth/me carrying the token and answers [res.ok], false when
    the network fails. A 401 there leaves the token in place. *)
Theorem checkAuth_only_asks (net : Network) (w : World) :
  window (snd (checkAuth net w)) = window w
  /\ (isAuthenticated w = false -> checkAuth net w = (Return false, w))
  /\ (isAuthenticated w = true ->
        checkAuth net w
        = (Return match result (net (me_request w)) with
                  | Some res => ok res
                  | None => false
                  end,
           logged w (me_request w))
        /\ headers (init (me_request w)) !! "Authorization"
           = (fun t => "Bearer " ++ t) <$> getToken w).
Proof. exact (checkAuth_cases net w). Qed.

(** ** Error messages *)




(** ** Session expiry across the endpoints *)

(** X6: no protected call changes the window (the token, the page) unless
    the response to its request has status 401: other error statuses,
    network failures and time-outs leave the session as it was. *)
Theorem session_survives_all_but_401 (net : Network) (c : protected_call) (w : World) :
  window (snd (perform net c w)) <> window w ->
  exists res,
    result (net (request_of w c)) = Some res
    /\ status res = 401%Z
    /\ aborted (net (request_of w c)) (request_of w c) = false.
Proof.
  rewrite perform_cases.
  destruct (aborted (net (request_of w c)) (request_of w c)); [intros H; now destruct H |].
  rewrite settled_window. cbn [logged window].
  destruct (result (net (request_of w c))) as [res |]; [| intros H; now destruct H].
  destruct (Z.eqb_spec (status res) 401) as [H401 | _]; [| intros H; now destruct H].
  intros _. exists res. repeat split. exact H401.
Qed.

Lemma session_survives_all_but_401_sample :
  exists res,
    result (replies 40 401 VNull (request_of signed_in FetchLatestScan)) = Some res
    /\ status res = 401%Z
    /\ aborted (replies 40 401 VNull (request_of signed_in FetchLatestScan))
         (request_of signed_in FetchLatestScan) = false.
Proof.
  apply (session_survives_all_but_401 (replies 40 401 VNull) FetchLatestScan signed_in).
  vm_compute. discriminate.
Defined.

(** X7: a 401 expires the session the same way on every protected
    endpoint: in the browser the call throws the Error 'Session expired',
    the token is removed, the page is reloaded once, and the next protected
    call carries no Authorization header. *)
Theorem every_endpoint_expires_the_session (net net' : Network) (c c' : protected_call)
    (win : Window) (log : list Request) (res : Response) :
  let w := {| window := Some win; sent := log |} in
  result (net (request_of w c)) = Some res ->
  status res = 401%Z ->
  aborted (net (request_of w c)) (request_of w c) = false ->
  let w1 := snd (perform net c w) in
  fst (perform net c w) = Throw (Error "Session expired")
  /\ window w1 = Some (expired win)
  /\ getToken w1 = None
  /\ exists req,
       sent (snd (perform net' c' w1)) = (sent w1 ++ [req])%list
       /\ headers (init req) !! "Authorization" = None.
Proof.
  intros w Hres H401 Hlive w1. subst w1.
  rewrite perform_cases, Hlive. unfold settled. rewrite Hres.
  assert (Heq : handleResponse res (logged w (request_of w c))
                = (Throw (Error "Session expired"),
                   {| window := Some (expired win);
                      sent := (log ++ [request_of w c])%list |})).
  { unfold handleResponse. rewrite H401. reflexivity. }
  rewrite Heq. cbn [fst snd window].
  assert (Hnone : getToken {| window := Some (expired win);
                              sent := (log ++ [request_of w c])%list |} = None).
  { unfold getToken, expired. cbn. apply lookup_delete_eq. }
  split; [reflexivity |]. split; [reflexivity |]. split; [exact Hnone |].
  destruct (perform_sends_one net' c'
              {| window := Some (expired win); sent := (log ++ [request_of w c])%list |})
    as [req [Hsent Hauth]].
  exists req. split; [exact Hsent |].
  rewrite Hauth, authHeaders_Authorization. unfold isAuthenticated. now rewrite Hnone.
Qed.

Lemma every_endpoint_expires_the_session_sample :
  fst (perform (replies 40 401 VNull) (FetchAlerts None) signed_in)
  = Throw (Error "Session expired")
  /\ window (snd (perform (replies 40 401 VNull) (FetchAlerts None) signed_in))
     = Some (expired (sample_window {[ TOKEN_KEY := "eyJhbGciOi" ]}))
  /\ getToken (snd (perform (replies 40 401 VNull) (FetchAlerts None) signed_in)) = None
  /\ exists req,
       sent (snd (perform unreachable TestDiscordWebhook
                    (snd (perform (replies 40 401 VNull) (FetchAlerts None) signed_in))))
       = (sent (snd (perform (replies 40 401 VNull) (FetchAlerts None) signed_in))
            ++ [req])%list
       /\ headers (init req) !! "Authorization" = None.
Proof.
  exact (every_endpoint_expires_the_session (replies 40 401 VNull) unreachable
           (FetchAlerts None) TestDiscordWebhook
           (sample_window {[ TOKEN_KEY := "eyJhbGciOi" ]}) [] _
           eq_refl eq_refl eq_refl).
Defined.

(** ** Requests without credentials *)

Lemma fetchOllamaStatus_cases (net : Network) (w : World) :
  fetchOllamaStatus net w
  = settled (net (ollama_request w)) (logged w (ollama_request w)).
Proof.
  unfold fetchOllamaStatus, settled, ollama_request, bind, fetch. cbn [signal get_init].
  destruct (result _); reflexivity.
Qed.

(** X8: [login] and [fetchOllamaStatus] send no Authorization header even
    when a token is stored; the Ollama status is still read through
    [handleResponse], so a 401 answer to it removes the token, while a
    rejected login (a 401 included) leaves the token alone. *)
Theorem requests_without_credentials (net : Network) (username password : string)
    (win : Window) (log : list Request) :
  let w := {| window := Some win; sent := log |} in
  sent (snd (fetchOllamaStatus net w)) = (log ++ [ollama_request w])%list
  /\ headers (init (ollama_request w)) = ∅
  /\ sent (snd (login net username password w))
     = (log ++ [login_request w username password])%list
  /\ headers (init (login_request w username password)) !! "Authorization" = None
  /\ (forall res,
        result (net (ollama_request w)) = Some res -> status res = 401%Z ->
        getToken (snd (fetchOllamaStatus net w)) = None)
  /\ (forall res,
        result (net (login_request w username password)) = Some res ->
        status res = 401%Z ->
        getToken (snd (login net username password w)) = getToken w).
Proof.
  intros w.
  split.
  { rewrite fetchOllamaStatus_cases, settled_sent. reflexivity. }
  split; [reflexivity |].
  pose proof (login_cases net username password w) as Hc. cbv zeta in Hc.
  split.
  { destruct (result (net (login_request w username password))) as [res |];
      [| now rewrite Hc].
    destruct (ok res); [| destruct Hc as [e ->]; reflexivity].
    destruct (json_body res) as [data |]; [| now rewrite Hc].
    destruct (Js.get data "access_token") as [tok | e]; rewrite Hc; reflexivity. }
  split; [reflexivity |]. split.
  - intros res Hres H401. rewrite fetchOllamaStatus_cases.
    unfold settled, handleResponse. rewrite Hres, H401. cbn.
    unfold getToken. cbn. apply lookup_delete_eq.
  - intros res Hres H401. rewrite Hres in Hc.
    assert (Hok : ok res = false) by (unfold ok; rewrite H401; reflexivity).
    rewrite Hok in Hc. destruct Hc as [e ->]. reflexivity.
Qed.

(** ** Content type *)

(** X9: the request of a protected call declares
    [Content-Type: application/json] exactly when it has a body, and a
    body goes only with POST; the test of the Discord webhook is a POST
    with neither. *)
Theorem content_type_goes_with_body (net : Network) (c : protected_call) (w : World) :
  exists req,
    sent (snd (perform net c w)) = (sent w ++ [req])%list
    /\ (headers (init req) !! "Content-Type"
        = match body (init req) with
          | Some _ => Some "application/json"
          | None => None
          end)
    /\ (is_Some (body (init req)) -> method (init req) = "POST")
    /\ (method (init req) = "GET" \/ method (init req) = "POST").
Proof.
  exists (request_of w c). split.
  { rewrite perform_cases.
    destruct (aborted _ _); [reflexivity |]. now rewrite settled_sent. }
  assert (Hct : forall hs : gmap string string,
             hs !! "Content-Type" = None ->
             spread json_headers hs !! "Content-Type" = Some "application/json").
  { intros hs Hhs. unfold spread, json_headers. rewrite lookup_union, Hhs.
    now rewrite lookup_singleton_eq. }
  assert (Hauth : authHeaders w !! "Content-Type" = None).
  { unfold authHeaders. destruct (getToken w) as [t |]; [| reflexivity].
    destruct (truthy_token (Some t)); [| reflexivity].
    now rewrite lookup_singleton_ne. }
  destruct c as [| network | | deviceIp | | | | | |];
    cbn [request_of latest_request startScan_request summary_request analysis_request
         history_request init headers body method get_init];
    cbn [Js.stringify];
    rewrite ?(Hct _ Hauth), ?Hauth;
    repeat split; auto; intros [x Hx]; discriminate.
Qed.

(** ** Downloading the report *)

Lemma before_T_day (day rest : string) :
  has_no_T day = true -> before_T (day ++ String "T" rest) = day.
Proof.
  unfold has_no_T. induction day as [| c day IH]; intros H.
  - cbn. reflexivity.
  - cbn [list_ascii_of_string forallb] in H. apply andb_prop in H as [Hc Hday].
    change (before_T (String c (day ++ String "T" rest)) = String c day).
    cbn [before_T].
    destruct (Ascii.eqb c "T"); [discriminate |]. f_equal. exact (IH Hday).
Qed.

(** X10: [downloadPdfReport] sends one GET for
    /api/report/pdf?include_ai=<flag>, false when no flag is given, with
    the bearer token if one is stored, and saves whatever response comes
    back, an error response as well, under
    network-sentinel-report-<day>.pdf; it never changes the window, so a
    401 here does not end the session. *)
Theorem downloadPdfReport_saves_any_response (net : Network) (includeAi : option bool)
    (day rest : string) (win : Window) (log : list Request) (res : Response) :
  let w := {| window := Some win; sent := log |} in
  let req := pdf_request w (default false includeAi) in
  result (net req) = Some res ->
  has_no_T day = true ->
  downloadPdfReport net includeAi (day ++ String "T" rest) w
  = (logged w req,
     Some {| download_name := "network-sentinel-report-" ++ day ++ ".pdf";
             download_blob := res |})
  /\ window (fst (downloadPdfReport net includeAi (day ++ String "T" rest) w)) = window w
  /\ headers (init req) !! "Authorization"
     = match getToken w with
       | Some token => if isAuthenticated w then Some ("Bearer " ++ token) else None
       | None => None
       end.
Proof.
  intros w req Hres Hday.
  assert (Heq : downloadPdfReport net includeAi (day ++ String "T" rest) w
                = (logged w req,
                   Some {| download_name := "network-sentinel-report-" ++ day ++ ".pdf";
                           download_blob := res |})).
  { unfold downloadPdfReport, fetch. cbn [signal get_init].
    fold (pdf_request w (default false includeAi)). fold req.
    rewrite Hres, (before_T_day day rest Hday). reflexivity. }
  rewrite Heq. split; [reflexivity |]. split; [reflexivity |].
  cbn [req pdf_request init get_init headers]. rewrite authHeaders_Authorization.
  destruct (getToken w), (isAuthenticated w); reflexivity.
Qed.

Lemma downloadPdfReport_saves_a_401 :
  downloadPdfReport (replies 40 401 (VObj [("detail", VStr "Not authenticated")]))
    None "2026-01-03T18:18:54.000Z" signed_in
  = (logged signed_in (pdf_request signed_in false),
     Some {| download_name := "network-sentinel-report-2026-01-03.pdf";
             download_blob := {| status := 401;
                                 json_body := Some (VObj [("detail",
                                                           VStr "Not authenticated")]) |} |})
  /\ window (fst (downloadPdfReport
                    (replies 40 401 (VObj [("detail", VStr "Not authenticated")]))
                    None "2026-01-03T18:18:54.000Z" signed_in))
     = window signed_in
  /\ headers (init (pdf_request signed_in false)) !! "Authorization"
     = match getToken signed_in with
       | Some token => if isAuthenticated signed_in then Some ("Bearer " ++ token) else None
       | None => None
       end.
Proof.
  exact (downloadPdfReport_saves_any_response
           (replies 40 401 (VObj [("detail", VStr "Not authenticated")])) None
           "2026-01-03" "18:18:54.000Z" (sample_window {[ TOKEN_KEY := "eyJhbGciOi" ]}) []
           _ eq_refl eq_refl).
Defined.

(** ** The login page and [Home] *)

Lemma login_window_on_failure (net : Network) (username password : string) (w : World)
    (e : exn) :
  fst (login net username password w) = Throw e ->
  window (snd (login net username password w)) = window w.
Proof.
  pose proof (login_cases net username password w) as Hc. cbv zeta in Hc.
  set (req := login_request w username password) in *.
  destruct (result (net req)) as [res |]; [| now rewrite Hc].
  destruct (ok res); [| destruct Hc as [e' ->]; reflexivity].
  destruct (json_body res) as [data |]; [| now rewrite Hc].
  destruct (Js.get data "access_token") as [tok | e']; [| now rewrite Hc].
  rewrite Hc.
  pose proof (setToken_window (Js.to_string tok) (logged w req)) as Hs.
  destruct (setToken (Js.to_string tok) (logged w req)) as [[[] | e'] w'].
  - discriminate.
  - subst w'. reflexivity.
Qed.

(** X11: submitting the login form never throws and always ends with the
    form no longer loading. [Home] switches to the dashboard exactly when
    [login] succeeded; otherwise the form shows the error's message,
    'Login failed' when that is empty, the screen and the stored token stay
    as they were. *)
Theorem handleSubmit_outcomes (net : Network) (s : Home.state) :
  let form := Home.login_page s in
  let attempt := login net (LoginPage.username form) (LoginPage.password form) (Home.tab s) in
  let s' := snd (Home.handleSubmit net s) in
  fst (Home.handleSubmit net s) = Return tt
  /\ LoginPage.loading (Home.login_page s') = false
  /\ LoginPage.username (Home.login_page s') = LoginPage.username form
  /\ LoginPage.password (Home.login_page s') = LoginPage.password form
  /\ Home.tab s' = snd attempt
  /\ match fst attempt with
     | Return _ =>
         Home.render s' = Home.DashboardScreen
         /\ LoginPage.error (Home.login_page s') = ""
     | Throw err =>
         Home.authenticated s' = Home.authenticated s
         /\ LoginPage.error (Home.login_page s')
            = (if String.eqb (exn_message err) "" then "Login failed" else exn_message err)
         /\ LoginPage.error (Home.login_page s') <> ""
         /\ getToken (Home.tab s') = getToken (Home.tab s)
     end.
Proof.
  intros form attempt s'. subst form attempt s'.
  pose proof (login_window_on_failure net
                (LoginPage.username (Home.login_page s))
                (LoginPage.password (Home.login_page s)) (Home.tab s)) as Hkeep.
  unfold Home.handleSubmit, Home.update_login_page, Home.handleLogin, Home.setAuthenticated,
    Home.call, Home.render, try_catch, bind.
  cbn [Home.login_page Home.tab Home.authenticated LoginPage.setError LoginPage.setLoading
       LoginPage.username LoginPage.password LoginPage.error LoginPage.loading].
  destruct (login net (LoginPage.username (Home.login_page s))
              (LoginPage.password (Home.login_page s)) (Home.tab s)) as [[data | err] w'].
  - cbn. repeat split.
  - cbn in Hkeep |- *. repeat split.
    + destruct (String.eqb_spec (exn_message err) ""); [discriminate | assumption].
    + unfold getToken. now rewrite (Hkeep err eq_refl).
Qed.

(** X12: when [Home] mounts, [checkAuth] decides the screen and the
    spinner never stays: the dashboard when a token is stored and
    /api/auth/me answers ok, the login page otherwise, without any request
    when no token is stored. Mounting never changes the token. *)
Theorem mount_chooses_the_screen (net : Network) (s : Home.state) :
  let s' := snd (Home.mount net s) in
  Home.render s' <> Home.Spinner
  /\ window (Home.tab s') = window (Home.tab s)
  /\ (Home.render s' = Home.DashboardScreen
      <-> isAuthenticated (Home.tab s) = true
          /\ exists res, result (net (me_request (Home.tab s))) = Some res /\ ok res = true)
  /\ (isAuthenticated (Home.tab s) = false ->
        Home.render s' = Home.LoginScreen /\ Home.tab s' = Home.tab s).
Proof.
  intros s'. subst s'.
  unfold Home.mount, Home.call, Home.setAuthenticated, Home.render, bind.
  destruct (checkAuth_cases net (Home.tab s)) as (Hwin & Hout & Hin).
  destruct (isAuthenticated (Home.tab s)) eqn:Hauth.
  - destruct (Hin eq_refl) as [Heq _]. rewrite Heq. cbn.
    destruct (result (net (me_request (Home.tab s)))) as [res |]; cbn.
    + destruct (ok res) eqn:Hok; cbn.
      * repeat split; try discriminate; eauto.
      * repeat split; try discriminate.
        intros (_ & res' & [= <-] & Hok'). congruence.
    + repeat split; try discriminate. intros (_ & res' & Hres & _). discriminate.
  - rewrite (Hout eq_refl). cbn. repeat split; try discriminate.
    intros [Hno _]. discriminate.
Qed.

(** X13: logging out removes the token and shows the login page; a later
    mount stays on the login page without asking the backend, and every
    later protected call goes out without an Authorization header. *)
Theorem logout_returns_to_login (net : Network) (c : protected_call) (s : Home.state)
    (win : Window) :
  window (Home.tab s) = Some win ->
  let s1 := snd (Home.handleLogout s) in
  Home.render s1 = Home.LoginScreen
  /\ getToken (Home.tab s1) = None
  /\ (forall key, key <> TOKEN_KEY -> stored (Home.tab s1) key = stored (Home.tab s) key)
  /\ snd (Home.mount net s1) = s1
  /\ exists req,
       sent (snd (perform net c (Home.tab s1))) = (sent (Home.tab s1) ++ [req])%list
       /\ headers (init req) !! "Authorization" = None.
Proof.
  intros Hwin s1. subst s1.
  destruct s as [auth form [w log]]. cbn in Hwin. subst w.
  unfold Home.handleLogout, Home.call, Home.setAuthenticated, logout, removeToken, bind,
    with_window. cbn.
  set (w1 := {| window := Some {| location_hostname := location_hostname win;
                                  localStorage := delete TOKEN_KEY (localStorage win);
                                  reloads := reloads win |};
                sent := log |}).
  assert (Hnone : getToken w1 = None) by (unfold getToken; cbn; apply lookup_delete_eq).
  assert (Hout : isAuthenticated w1 = false) by (unfold isAuthenticated; now rewrite Hnone).
  split; [reflexivity |]. split; [exact Hnone |]. split.
  { intros key Hkey. unfold stored. cbn. now rewrite lookup_delete_ne by congruence. }
  split.
  { unfold Home.mount, Home.call, Home.setAuthenticated, bind. cbn [Home.tab].
    destruct (checkAuth_cases net w1) as (_ & Hno & _). rewrite (Hno Hout). reflexivity. }
  destruct (perform_sends_one net c w1) as [req [Hsent Hauth]].
  exists req. split; [exact Hsent |].
  now rewrite Hauth, authHeaders_Authorization, Hout.
Qed.

Lemma logout_returns_to_login_sample :
  let s := {| Home.authenticated := Some true;
              Home.login_page := {| LoginPage.username := "admin"; LoginPage.password := "";
                                    LoginPage.error := ""; LoginPage.loading := false |};
              Home.tab := signed_in |} in
  let s1 := snd (Home.handleLogout s) in
  Home.render s1 = Home.LoginScreen
  /\ getToken (Home.tab s1) = None
  /\ (forall key, key <> TOKEN_KEY -> stored (Home.tab s1) key = stored (Home.tab s) key)
  /\ snd (Home.mount unreachable s1) = s1
  /\ exists req,
       sent (snd (perform unreachable FetchLatestScan (Home.tab s1)))
       = (sent (Home.tab s1) ++ [req])%list
       /\ headers (init req) !! "Authorization" = None.
Proof.
  exact (logout_returns_to_login unreachable FetchLatestScan
           {| Home.authenticated := Some true;
              Home.login_page := {| LoginPage.username := "admin"; LoginPage.password := "";
                                    LoginPage.error := ""; LoginPage.loading := false |};
              Home.tab := signed_in |}
           (sample_window {[ TOKEN_KEY := "eyJhbGciOi" ]}) eq_refl).
Defined.

(** X14: an expired session lands on the login page: after a 401 on any
    protected call has removed the token and reloaded the page, the fresh
    [Home] mounts to the login page and sends no request of its own. *)
Theorem expired_session_lands_on_login (net net' : Network) (c : protected_call)
    (win : Window) (log : list Request) (res : Response) (form : LoginPage.state) :
  let w := {| window := Some win; sent := log |} in
  result (net (request_of w c)) = Some res ->
  status res = 401%Z ->
  aborted (net (request_of w c)) (request_of w c) = false ->
  let reloaded := {| Home.authenticated := None; Home.login_page := form;
                     Home.tab := snd (perform net c w) |} in
  reloads <$> window (Home.tab reloaded) = Some (S (reloads win))
  /\ Home.render reloaded = Home.Spinner
  /\ Home.render (snd (Home.mount net' reloaded)) = Home.LoginScreen
  /\ Home.tab (snd (Home.mount net' reloaded)) = Home.tab reloaded.
Proof.
  intros w Hres H401 Hlive reloaded. subst reloaded.
  assert (Hw1 : snd (perform net c w)
                = {| window := Some (expired win);
                     sent := (log ++ [request_of w c])%list |}).
  { rewrite perform_cases, Hlive. unfold settled. rewrite Hres.
    unfold handleResponse. rewrite H401. reflexivity. }
  rewrite Hw1. cbn [Home.tab Home.render Home.authenticated].
  set (w1 := {| window := Some (expired win); sent := (log ++ [request_of w c])%list |}).
  assert (Hout : isAuthenticated w1 = false).
  { unfold isAuthenticated, getToken, expired. cbn. now rewrite lookup_delete_eq. }
  split; [reflexivity |]. split; [reflexivity |].
  unfold Home.mount, Home.call, Home.setAuthenticated, bind. cbn [Home.tab].
  destruct (checkAuth_cases net' w1) as (_ & Hno & _). rewrite (Hno Hout).
  split; reflexivity.
Qed.

Lemma expired_session_lands_on_login_sample :
  let form := {| LoginPage.username := ""; LoginPage.password := "";
                 LoginPage.error := ""; LoginPage.loading := false |} in
  let reloaded := {| Home.authenticated := None; Home.login_page := form;
                     Home.tab := snd (perform (replies 40 401 VNull) FetchLatestScan
                                        signed_in) |} in
  reloads <$> window (Home.tab reloaded) = Some 1%nat
  /\ Home.render reloaded = Home.Spinner
  /\ Home.render (snd (Home.mount unreachable reloaded)) = Home.LoginScreen
  /\ Home.tab (snd (Home.mount unreachable reloaded)) = Home.tab reloaded.
Proof.
  exact (expired_session_lands_on_login (replies 40 401 VNull) unreachable FetchLatestScan
           (sample_window {[ TOKEN_KEY := "eyJhbGciOi" ]}) [] _
           {| LoginPage.username := ""; LoginPage.password := "";
              LoginPage.error := ""; LoginPage.loading := false |}
           eq_refl eq_refl eq_refl).
Defined.

(** ** Loading the dashboard *)

Lemma or_else_settled (reply : Reply) (v : jsval) (w : World) :
  or_else (settled reply) v w = (Return (read_or v reply), expire_if_401 reply w).
Proof.
  unfold or_else, try_catch, settled, read_or, expire_if_401, ret.
  destruct (result reply) as [res |]; [| reflexivity].
  destruct w as [win log].
  unfold handleResponse.
  destruct (Z.eqb_spec (status res) 401) as [H401 | Hne].
  - assert (Hok : ok res = false) by (unfold ok; rewrite H401; reflexivity).
    rewrite Hok. unfold removeToken, reload_if_window, bind, throw, with_window.
    destruct win; reflexivity.
  - destruct (ok res); cbn [negb].
    + unfold Response_json, ret, throw. destruct (json_body res); reflexivity.
    + destruct (@throw_detail_throws World jsval res "Request failed"
                  {| window := win; sent := log |}) as [e ->]. reflexivity.
Qed.

(** The order in which two responses are read does not matter. *)
Lemma expire_if_401_commute (rp1 rp2 : Reply) (w : World) :
  expire_if_401 rp1 (expire_if_401 rp2 w) = expire_if_401 rp2 (expire_if_401 rp1 w).
Proof.
  unfold expire_if_401.
  destruct (result rp1) as [res1 |], (result rp2) as [res2 |]; try reflexivity.
  destruct (status res1 =? 401)%Z, (status res2 =? 401)%Z; reflexivity.
Qed.

Lemma expire_if_401_sent (reply : Reply) (w : World) :
  sent (expire_if_401 reply w) = sent w.
Proof.
  unfold expire_if_401. destruct (result reply) as [res |]; [| reflexivity].
  destruct (status res =? 401)%Z; reflexivity.
Qed.

Lemma load_all_cases (net : Network) (w : World) :
  load_all net w
  = (Return (read_or VNull (net (latest_request w)),
             read_or VNull (net (stats_request w)),
             read_or VNull (net (ollama_request w)),
             read_or (VObj [("scans", VArr [])]) (net (history_request w (Some 10%Z))),
             read_or (VObj [("configured", VBool false)])
               (net (request_of w GetDiscordSettings))),
     expire_if_401 (net (request_of w GetDiscordSettings))
       (expire_if_401 (net (history_request w (Some 10%Z)))
          (expire_if_401 (net (ollama_request w))
             (expire_if_401 (net (stats_request w))
                (expire_if_401 (net (latest_request w))
                   {| window := window w;
                      sent := (sent w ++ load_requests w)%list |}))))).
Proof.
  unfold load_all. cbv zeta. unfold bind.
  repeat (rewrite or_else_settled; cbv beta iota).
  unfold ret, logged, load_requests. cbn [window sent].
  rewrite <- !app_assoc. reflexivity.
Qed.

(** What [loadData] leaves behind, for any network. *)
Lemma loadData_cases (net : Network) (b : Browser) :
  let w := world (app b) in
  let scans := Js.get (read_or (VObj [("scans", VArr [])])
                         (net (history_request w (Some 10%Z)))) "scans" in
  let configured := Js.get (read_or (VObj [("configured", VBool false)])
                              (net (request_of w GetDiscordSettings))) "configured" in
  let b' := snd (loadData net b) in
  fst (loadData net b) = Return tt
  /\ loading (ui (app b')) = false
  /\ scanning (ui (app b')) = scanning (ui (app b))
  /\ timers (app b') = timers (app b)
  /\ alerted b' = alerted b
  /\ sent (world (app b')) = (sent w ++ load_requests w)%list
  /\ scanResults (ui (app b')) = read_or VNull (net (latest_request w))
  /\ stats (ui (app b')) = read_or VNull (net (stats_request w))
  /\ ollamaStatus (panels b') = read_or VNull (net (ollama_request w))
  /\ match scans, configured with
     | Return v, Return c =>
         scanHistory (ui (app b')) = v /\ discordConfigured (panels b') = c
         /\ error (ui (app b')) = None
     | Return v, Throw _ =>
         scanHistory (ui (app b')) = v
         /\ discordConfigured (panels b') = discordConfigured (panels b)
         /\ error (ui (app b')) = Some "Failed to load data. Is the backend running?"
     | Throw _, _ =>
         scanHistory (ui (app b')) = scanHistory (ui (app b))
         /\ discordConfigured (panels b') = discordConfigured (panels b)
         /\ error (ui (app b')) = Some "Failed to load data. Is the backend running?"
     end.
Proof.
  intros w scans configured b'. subst w scans configured b'.
  unfold loadData, bind, try_catch, in_app, api, lift.
  cbn [app world ui panels alerted setLoading setError update_ui fst snd].
  rewrite load_all_cases. cbn [fst snd].
  set (W := expire_if_401 _ _).
  assert (HW : sent W = (sent (world (app b)) ++ load_requests (world (app b)))%list).
  { subst W. now rewrite !expire_if_401_sent. }
  clearbody W.
  set (scanData := read_or VNull (net (latest_request (world (app b))))).
  set (statsData := read_or VNull (net (stats_request (world (app b))))).
  set (ollamaData := read_or VNull (net (ollama_request (world (app b))))).
  set (historyData := read_or _ (net (history_request (world (app b)) (Some 10%Z)))).
  set (discordData := read_or _ (net (request_of (world (app b)) GetDiscordSettings))).
  clearbody scanData statsData ollamaData historyData discordData.
  destruct (Js.get historyData "scans") as [v | e]; cbn.
  - destruct (Js.get discordData "configured") as [c | e]; cbn; repeat split; exact HW.
  - repeat split; exact HW.
Qed.

Lemma read_or_not_ok (v : jsval) (reply : Reply) :
  (forall res, result reply = Some res -> ok res = false) -> read_or v reply = v.
Proof.
  intros H. unfold read_or. destruct (result reply) as [res |]; [| reflexivity].
  now rewrite (H res eq_refl).
Qed.

(** X15: when no request of [loadData] gets an ok response (the backend
    is down, or answers with errors only) the dashboard comes up empty and
    without any error message: the 'Is the backend running?' message is not
    shown. *)
Theorem loadData_is_silent_when_backend_is_down (net : Network) (b : Browser) :
  (forall req res, result (net req) = Some res -> ok res = false) ->
  let b' := snd (loadData net b) in
  error (ui (app b')) = None
  /\ loading (ui (app b')) = false
  /\ scanResults (ui (app b')) = VNull
  /\ stats (ui (app b')) = VNull
  /\ scanHistory (ui (app b')) = VArr []
  /\ ollamaStatus (panels b') = VNull
  /\ discordConfigured (panels b') = VBool false.
Proof.
  intros Hdown b'. subst b'.
  pose proof (loadData_cases net b) as H. cbv zeta in H.
  rewrite !read_or_not_ok in H by (intros res; apply Hdown).
  cbn in H. tauto.
Qed.

Lemma loadData_is_silent_when_unreachable :
  let b' := snd (loadData unreachable (fresh_browser signed_in)) in
  error (ui (app b')) = None
  /\ loading (ui (app b')) = false
  /\ scanResults (ui (app b')) = VNull
  /\ stats (ui (app b')) = VNull
  /\ scanHistory (ui (app b')) = VArr []
  /\ ollamaStatus (panels b') = VNull
  /\ discordConfigured (panels b') = VBool false.
Proof.
  apply (loadData_is_silent_when_backend_is_down unreachable (fresh_browser signed_in)).
  intros req res Hres. discriminate.
Defined.

(** X16: [loadData] never throws and always ends with the loading flag
    down. It sends exactly five requests (latest scan, statistics, Ollama
    status, the last 10 history entries, Discord settings), all built from
    the token as it was when it started, even when an early response is a
    401. Its error message appears only when the history or the Discord
    settings are answered ok with a body that is JSON null. *)
Theorem loadData_sends_five_requests (net : Network) (b : Browser) :
  let w := world (app b) in
  let b' := snd (loadData net b) in
  fst (loadData net b) = Return tt
  /\ loading (ui (app b')) = false
  /\ sent (world (app b')) = (sent w ++ load_requests w)%list
  /\ Forall (fun req => headers (init req) !! "Authorization" = None
                        \/ headers (init req) !! "Authorization"
                           = (fun t => "Bearer " ++ t) <$> getToken w)
       (load_requests w)
  /\ (error (ui (app b')) <> None ->
        exists req res,
          (req = history_request w (Some 10%Z) \/ req = request_of w GetDiscordSettings)
          /\ result (net req) = Some res /\ ok res = true
          /\ (json_body res = Some VNull \/ json_body res = Some VUndefined)).
Proof.
  intros w b'. subst w b'.
  pose proof (loadData_cases net b) as H. cbv zeta in H.
  destruct H as (Hret & Hload & _ & _ & _ & Hsent & _ & _ & _ & Hcase).
  split; [exact Hret |]. split; [exact Hload |]. split; [exact Hsent |]. split.
  { unfold load_requests.
    assert (Hauth : authHeaders (world (app b)) !! "Authorization" = None
                    \/ authHeaders (world (app b)) !! "Authorization"
                       = (fun t => "Bearer " ++ t) <$> getToken (world (app b))).
    { rewrite authHeaders_Authorization.
      destruct (isAuthenticated (world (app b))); auto. }
    apply List.Forall_cons; [exact Hauth |].
    apply List.Forall_cons; [exact Hauth |].
    apply List.Forall_cons; [left; reflexivity |].
    apply List.Forall_cons; [exact Hauth |].
    apply List.Forall_cons; [exact Hauth |].
    apply List.Forall_nil. }
  intros Herr.
  assert (Hnull : forall v reply k,
             (exists e, Js.get (read_or (VObj [(k, v)]) reply) k = Throw e) ->
             exists res, result reply = Some res /\ ok res = true
                         /\ (json_body res = Some VNull \/ json_body res = Some VUndefined)).
  { intros v reply k [e He]. unfold read_or in He.
    destruct (result reply) as [res |]; [| unfold Js.get in He; discriminate].
    destruct (ok res) eqn:Hok; [| unfold Js.get in He; discriminate].
    exists res. split; [reflexivity |]. split; [exact Hok |].
    destruct (json_body res) as [[| | | | | |] |]; unfold Js.get in He; cbn [default] in He;
      try discriminate; auto. }
  destruct (Js.get (read_or (VObj [("scans", VArr [])])
                      (net (history_request (world (app b)) (Some 10%Z)))) "scans")
    as [v | e] eqn:Hscans.
  - destruct (Js.get (read_or (VObj [("configured", VBool false)])
                        (net (request_of (world (app b)) GetDiscordSettings))) "configured")
      as [c | e] eqn:Hconf.
    + destruct Hcase as (_ & _ & Hnone). congruence.
    + destruct (Hnull _ _ _ (ex_intro _ e Hconf)) as (res & Hres & Hok & Hbody).
      exists (request_of (world (app b)) GetDiscordSettings), res. auto.
  - destruct (Hnull _ _ _ (ex_intro _ e Hscans)) as (res & Hres & Hok & Hbody).
    exists (history_request (world (app b)) (Some 10%Z)), res. auto.
Qed.

(** With a stored token and a 401 on the first response, the other four
    requests of [loadData] still carry the token: they left before the
    response was read. *)
Example loadData_requests_leave_before_the_401 :
  map (fun r => headers (init r) !! "Authorization")
      (sent (world (app (snd (loadData (replies 40 401 VNull) (fresh_browser signed_in))))))
  = [Some "Bearer eyJhbGciOi"; Some "Bearer eyJhbGciOi"; None;
     Some "Bearer eyJhbGciOi"; Some "Bearer eyJhbGciOi"]
  /\ getToken (world (app (snd (loadData (replies 40 401 VNull) (fresh_browser signed_in)))))
     = None.
Proof. vm_compute. repeat split; reflexivity. Qed.

(** ** AI analysis *)

(** X17: [handleAIAnalysis] never throws and always ends with the
    analyzing flag down. The analysis is requested only after the summary
    arrived; a summary that arrived stays on the page when the analysis
    fails; every failure, a time-out included, shows the same fixed
    message and clears the analysis text. The scan data, the timers and
    the alerts are never touched. *)
Theorem handleAIAnalysis_outcomes (net1 net2 : Network) (b : Browser) :
  let w := world (app b) in
  let failed := Some "AI analysis failed. Ollama may be slow - try again." in
  let b' := snd (handleAIAnalysis net1 net2 b) in
  fst (handleAIAnalysis net1 net2 b) = Return tt
  /\ analyzing (panels b') = false
  /\ scanResults (ui (app b')) = scanResults (ui (app b))
  /\ stats (ui (app b')) = stats (ui (app b))
  /\ scanHistory (ui (app b')) = scanHistory (ui (app b))
  /\ scanning (ui (app b')) = scanning (ui (app b))
  /\ timers (app b') = timers (app b)
  /\ alerted b' = alerted b
  /\ match fetchAISummary net1 w with
     | (Throw _, w1) =>
         world (app b') = w1
         /\ sent w1 = (sent w ++ [summary_request w])%list
         /\ aiSummary (panels b') = VNull
         /\ aiAnalysis (panels b') = VNull
         /\ error (ui (app b')) = failed
     | (Return summary, w1) =>
         aiSummary (panels b') = summary
         /\ world (app b') = snd (fetchAIAnalysis net2 None w1)
         /\ match fst (fetchAIAnalysis net2 None w1) with
            | Throw _ => aiAnalysis (panels b') = VNull /\ error (ui (app b')) = failed
            | Return analysis =>
                match Js.get analysis "analysis" with
                | Return text => aiAnalysis (panels b') = text /\ error (ui (app b')) = None
                | Throw _ => aiAnalysis (panels b') = VNull /\ error (ui (app b')) = failed
                end
            end
     end.
Proof.
  intros w failed b'. subst w failed b'.
  pose proof (guarded_fetch_then_handle_sent net1
                (fun w => API_BASE w ++ "/api/ai/quick-summary")
                (fun w => {| method := "GET"; headers := authHeaders w;
                             body := None; signal := Some 120000%Z |})
                (world (app b))) as Hsent.
  change (sent (snd (fetchAISummary net1 (world (app b))))
          = (sent (world (app b)) ++ [summary_request (world (app b))])%list) in Hsent.
  unfold handleAIAnalysis, bind, try_catch, in_app, api, lift.
  cbn [setAnalyzing setAiAnalysis setAiSummary setError update_panels update_ui
       app world ui panels alerted timers fst snd].
  destruct (fetchAISummary net1 (world (app b))) as [[summary | e] w1]; cbn in Hsent |- *.
  2:{ repeat split. exact Hsent. }
  destruct (fetchAIAnalysis net2 None w1) as [[analysis | e] w2]; cbn.
  2:{ repeat split. }
  destruct (Js.get analysis "analysis") as [text | e]; cbn; repeat split.
Qed.

(** ** Discord settings *)

(** X18: saving the Discord webhook sends the text of the input as it is,
    an empty one as well; the page counts the webhook as configured and
    alerts only when the save succeeded, and shows its own fixed message
    otherwise. Testing the webhook never changes whether it counts as
    configured. Neither handler throws. *)
Theorem discord_handlers_outcomes (net : Network) (b : Browser) :
  let w := world (app b) in
  let saved := snd (handleSaveDiscord net b) in
  let tested := snd (handleTestDiscord net b) in
  fst (handleSaveDiscord net b) = Return tt
  /\ fst (handleTestDiscord net b) = Return tt
  /\ (exists rest,
        sent (world (app saved))
        = (sent w ++ request_of w (ConfigureDiscordWebhook (discordWebhook (panels b)))
                  :: rest)%list)
  /\ body (init (request_of w (ConfigureDiscordWebhook (discordWebhook (panels b)))))
     = Some ("{" ++ Js.quote "webhook_url" ++ ":" ++ Js.quote (discordWebhook (panels b)) ++ "}")
  /\ match fst (configureDiscordWebhook net (discordWebhook (panels b)) w) with
     | Return _ =>
         discordConfigured (panels saved) = VBool true
         /\ error (ui (app saved)) = None
         /\ alerted saved = (alerted b ++ ["Discord webhook configured successfully!"])%list
     | Throw _ =>
         discordConfigured (panels saved) = discordConfigured (panels b)
         /\ error (ui (app saved)) = Some "Failed to save Discord webhook"
         /\ alerted saved = alerted b
     end
  /\ discordConfigured (panels tested) = discordConfigured (panels b)
  /\ match fst (testDiscordWebhook net w) with
     | Return _ =>
         error (ui (app tested)) = error (ui (app b))
         /\ alerted tested = (alerted b ++ ["Test notification sent to Discord!"])%list
     | Throw _ =>
         error (ui (app tested))
         = Some "Failed to send test notification. Check webhook URL."
         /\ alerted tested = alerted b
     end.
Proof.
  intros w saved tested. subst w saved tested.
  pose proof (perform_cases net (ConfigureDiscordWebhook (discordWebhook (panels b)))
                (world (app b))) as Hc.
  cbn [perform] in Hc.
  assert (Hsent : sent (snd (configureDiscordWebhook net (discordWebhook (panels b))
                               (world (app b))))
                  = (sent (world (app b))
                       ++ [request_of (world (app b))
                             (ConfigureDiscordWebhook (discordWebhook (panels b)))])%list).
  { rewrite Hc. destruct (aborted _ _); [reflexivity |]. now rewrite settled_sent. }
  unfold handleSaveDiscord, handleTestDiscord, bind, try_catch, in_app, api, alert.
  cbn [setDiscordConfigured setError update_panels update_ui
       app world ui panels alerted timers fst snd].
  destruct (configureDiscordWebhook net (discordWebhook (panels b)) (world (app b)))
    as [[v | e] w1]; cbn in Hsent |- *;
    destruct (testDiscordWebhook net (world (app b))) as [[v' | e'] w2]; cbn;
    repeat split; try (exists []; exact Hsent).
Qed.

(** ** More on polling *)

(** A poll that fetches a later scan but cannot fetch the statistics. *)
Lemma checkScan_without_stats (shown : jsval) (net : Network) (b : App) (t : string)
    (latest : jsval) :
  result (net (latest_request (world b))) = Some (json_response latest) ->
  Js.get latest "scan_time" = Return (VStr t) ->
  Js.strict_eq (VStr t) (Js.get_opt shown "scan_time") = false ->
  result (net (stats_request (world b))) = None ->
  snd (checkScan shown net b)
  = {| ui := {| scanResults := latest; stats := stats (ui b);
                scanHistory := scanHistory (ui b); loading := loading (ui b);
                scanning := scanning (ui b); error := error (ui b) |};
       world := logged (logged (world b) (latest_request (world b)))
                  (stats_request (world b));
       timers := timers b |}.
Proof.
  intros Hl Ht Hdiff Hs.
  unfold checkScan, try_catch, bind, api, lift, ret.
  rewrite fetchLatestScan_cases, (settled_json _ _ _ _ Hl).
  unfold scan_time_differs. rewrite Ht, Hdiff. cbn.
  rewrite fetchStats_cases.
  change (stats_request (logged (world b) (latest_request (world b))))
    with (stats_request (world b)).
  unfold settled. rewrite Hs. reflexivity.
Qed.

(** X19: a poll that fetched a later scan but failed to fetch the
    statistics shows the new results and keeps polling; because every poll
    compares with the scan_time captured when [handleScan] was invoked, not
    with what is now on display, the next healthy poll still sees a
    difference and completes. *)
Theorem polling_retries_after_a_partial_failure (shown : jsval) (net1 net2 : Network)
    (b : App) (t1 t2 : string) (latest1 latest2 newStats history scans : jsval) :
  interval (timers b) <> None ->
  result (net1 (latest_request (world b))) = Some (json_response latest1) ->
  Js.get latest1 "scan_time" = Return (VStr t1) ->
  Js.strict_eq (VStr t1) (Js.get_opt shown "scan_time") = false ->
  result (net1 (stats_request (world b))) = None ->
  serves net2 (world b) t2 latest2 newStats history scans ->
  Js.strict_eq (VStr t2) (Js.get_opt shown "scan_time") = false ->
  let b1 := fire shown (IntervalFires net1) b in
  let b2 := fire shown (IntervalFires net2) b1 in
  scanResults (ui b1) = latest1
  /\ stats (ui b1) = stats (ui b)
  /\ scanning (ui b1) = scanning (ui b)
  /\ timers b1 = timers b
  /\ ui b2 = completed (ui b) latest2 newStats scans
  /\ timers b2 = {| interval := None; timeout := timeout (timers b) |}.
Proof.
  intros Harmed Hl Ht Hdiff Hs Hserves Hdiff2 b1 b2. subst b1 b2.
  destruct (interval (timers b)) as [p |] eqn:Hint; [clear Harmed | congruence].
  pose proof (checkScan_without_stats shown net1 b t1 latest1 Hl Ht Hdiff Hs) as Hfirst.
  set (b1 := {| ui := _; world := _; timers := timers b |}) in Hfirst.
  assert (Hs2 : serves net2 (world b1) t2 latest2 newStats history scans).
  { apply (serves_window net2 (world b)); [reflexivity | exact Hserves]. }
  pose proof (checkScan_healthy shown net2 b1 t2 latest2 newStats history scans Hs2) as Hh.
  rewrite Hdiff2 in Hh.
  assert (H1 : fire shown (IntervalFires net1) b = b1).
  { unfold fire. rewrite Hint. exact Hfirst. }
  assert (H2 : fire shown (IntervalFires net2) b1 = snd (checkScan shown net2 b1)).
  { unfold fire. change (interval (timers b1)) with (interval (timers b)).
    rewrite Hint. reflexivity. }
  rewrite H1, H2, Hh. repeat split; reflexivity.
Qed.

Lemma polling_retries_sample :
  let shown := scan_taken_at "2026-01-03T18:18:54" in
  let later := scan_taken_at "2026-01-03T18:25:10" in
  let b := snd (handleScan (replies 40 200 VNull) (idle_app shown)) in
  let net1 := routed [("http://sentinel.local:8000/api/scan/latest", later)] in
  let net2 := replies 40 200 later in
  let b1 := fire shown (IntervalFires net1) b in
  let b2 := fire shown (IntervalFires net2) b1 in
  scanResults (ui b1) = later
  /\ stats (ui b1) = stats (ui b)
  /\ scanning (ui b1) = scanning (ui b)
  /\ timers b1 = timers b
  /\ ui b2 = completed (ui b) later later (VArr [])
  /\ timers b2 = {| interval := None; timeout := timeout (timers b) |}.
Proof.
  apply (polling_retries_after_a_partial_failure
           (scan_taken_at "2026-01-03T18:18:54")
           (routed [("http://sentinel.local:8000/api/scan/latest",
                     scan_taken_at "2026-01-03T18:25:10")])
           (replies 40 200 (scan_taken_at "2026-01-03T18:25:10"))
           (snd (handleScan (replies 40 200 VNull)
                   (idle_app (scan_taken_at "2026-01-03T18:18:54"))))
           "2026-01-03T18:25:10" "2026-01-03T18:25:10"
           (scan_taken_at "2026-01-03T18:25:10")
           (scan_taken_at "2026-01-03T18:25:10")
           (scan_taken_at "2026-01-03T18:25:10")
           (scan_taken_at "2026-01-03T18:25:10") (VArr [])).
  - vm_compute. discriminate.
  - vm_compute. reflexivity.
  - vm_compute. reflexivity.
  - vm_compute. reflexivity.
  - vm_compute. reflexivity.
  - unfold serves. repeat split; vm_compute; reflexivity.
  - vm_compute. reflexivity.
Defined.

Lemma quiet_without_interval (shown : jsval) (evs : list timer_event) (a : App) :
  interval (timers a) = None ->
  let final := run_events shown evs a in
  world final = world a
  /\ scanResults (ui final) = scanResults (ui a)
  /\ stats (ui final) = stats (ui a)
  /\ scanHistory (ui final) = scanHistory (ui a)
  /\ error (ui final) = error (ui a)
  /\ interval (timers final) = None.
Proof.
  revert a. induction evs as [| ev evs IH]; intros a Hnone; [cbn; tauto |].
  cbn [run_events fold_left].
  change (fold_left (fun acc ev => fire shown ev acc) evs (fire shown ev a))
    with (run_events shown evs (fire shown ev a)).
  assert (Hstep : world (fire shown ev a) = world a
                  /\ scanResults (ui (fire shown ev a)) = scanResults (ui a)
                  /\ stats (ui (fire shown ev a)) = stats (ui a)
                  /\ scanHistory (ui (fire shown ev a)) = scanHistory (ui a)
                  /\ error (ui (fire shown ev a)) = error (ui a)
                  /\ interval (timers (fire shown ev a)) = None).
  { destruct ev as [net |]; cbn.
    - rewrite Hnone. tauto.
    - destruct (timeout (timers a)); cbn; tauto. }
  destruct Hstep as (H1 & H2 & H3 & H4 & H5 & H6).
  specialize (IH (fire shown ev a) H6). cbv zeta in IH.
  destruct IH as (I1 & I2 & I3 & I4 & I5 & I6).
  repeat split; congruence.
Qed.

(** X20: whatever makes [startScan] fail (a scan already running, an
    expired session, an unreachable backend), [handleScan] shows the same
    sudo-access message, drops the server's own message, arms no timer,
    and from then on nothing is fetched and nothing on the page changes
    except through a timer armed earlier. *)
Theorem failed_start_never_polls (net : Network) (a : App) (e : exn)
    (evs : list timer_event) :
  fst (startScan net None (world a)) = Throw e ->
  interval (timers a) = None ->
  let started := snd (handleScan net a) in
  let final := run_events (scanResults (ui a)) evs started in
  error (ui started)
  = Some "Failed to start scan. Make sure the backend has sudo access."
  /\ scanning (ui started) = false
  /\ timers started = timers a
  /\ world started = snd (startScan net None (world a))
  /\ world final = world started
  /\ scanResults (ui final) = scanResults (ui a)
  /\ error (ui final) = error (ui started).
Proof.
  intros Hfail Hnone started final. subst started final.
  pose proof (handleScan_cases net a) as H. cbv zeta in H.
  destruct H as (Hworld & Hres & _ & _ & Hcase). rewrite Hfail in Hcase.
  destruct Hcase as (Htimers & Hscanning & Herror).
  assert (Hquiet : interval (timers (snd (handleScan net a))) = None)
    by (now rewrite Htimers).
  pose proof (quiet_without_interval (scanResults (ui a)) evs _ Hquiet) as Hq.
  cbv zeta in Hq. destruct Hq as (Q1 & Q2 & _ & _ & Q5 & _).
  repeat split; try assumption. congruence.
Qed.

Lemma failed_start_never_polls_sample :
  let net := replies 40 409 (VObj [("detail", VStr "Scan already in progress")]) in
  let a := idle_app VNull in
  let started := snd (handleScan net a) in
  let final := run_events (scanResults (ui a))
                 [IntervalFires (replies 40 200 (scan_taken_at "2026-01-03T18:25:10"))]
                 started in
  error (ui started)
  = Some "Failed to start scan. Make sure the backend has sudo access."
  /\ scanning (ui started) = false
  /\ timers started = timers a
  /\ world started = snd (startScan net None (world a))
  /\ world final = world started
  /\ scanResults (ui final) = scanResults (ui a)
  /\ error (ui final) = error (ui started).
Proof.
  exact (failed_start_never_polls
           (replies 40 409 (VObj [("detail", VStr "Scan already in progress")]))
           (idle_app VNull) (Error "Scan already in progress")
           [IntervalFires (replies 40 200 (scan_taken_at "2026-01-03T18:25:10"))]
           eq_refl eq_refl).
Defined.
